(** * The layer system of wx-caman ([src/core/layer.js])

    A shallow embedding of the [Layer] class: its configuration setters,
    [copyParent] and the compositing loop [applyToParent], over an explicit
    store of typed arrays.  JavaScript numbers are IEEE 754 binary64 values,
    modelled by Rocq's primitive floats; a [Uint8ClampedArray] is a list of
    integers that are written through the [ToUint8Clamp] conversion. *)

From Stdlib Require Import ZArith Floats Lia ZifyNat.
From Stdlib Require Uint63.
From stdpp Require Import base option list gmap strings.

Local Open Scope Z_scope.

(** ** JavaScript values *)

(** The values that flow through the pixel code: a number, or [undefined]
    (an out-of-range read of a typed array, a property left unset). *)
Inductive jsval : Type :=
  | JUndefined
  | JNum (x : float).

(** [ToNumber]: [undefined] becomes [NaN]. *)
Definition ToNumber (v : jsval) : float :=
  match v with
  | JUndefined => nan
  | JNum x => x
  end.

(** [ToBoolean]: [undefined], [NaN], [+0] and [-0] are falsy. *)
Definition ToBoolean (v : jsval) : bool :=
  match v with
  | JUndefined => false
  | JNum x => negb (PrimFloat.is_nan x || PrimFloat.is_zero x)
  end.

(** The operators [-], [*], [/], [<] and [>] on values. *)
Definition js_sub (x y : jsval) : jsval := JNum (ToNumber x - ToNumber y)%float.
Definition js_mul (x y : jsval) : jsval := JNum (ToNumber x * ToNumber y)%float.
Definition js_div (x y : jsval) : jsval := JNum (ToNumber x / ToNumber y)%float.
Definition js_lt (x y : jsval) : bool := (ToNumber x <? ToNumber y)%float.
Definition js_gt (x y : jsval) : bool := (ToNumber y <? ToNumber x)%float.

(** ** Uint8ClampedArray *)

(** The number an element of the array reads as. *)
Definition num_of_byte (z : Z) : float := PrimFloat.of_uint63 (Uint63.of_Z z).

(** The integer nearest to [m * 2^e], ties to the even one. *)
Definition round_half_even (m : positive) (e : Z) : Z :=
  match e with
  | Zneg k =>
      let d := Z.pow_pos 2 k in
      let q := Z.pos m / d in
      match 2 * (Z.pos m mod d) ?= d with
      | Lt => q
      | Gt => q + 1
      | Eq => if Z.even q then q else q + 1
      end
  | _ => Z.pos m * 2 ^ e
  end.

(** [ToUint8Clamp]: [NaN] and everything below zero store 0, everything
    above 255 stores 255, the rest is rounded half to even. *)
Definition ToUint8Clamp (x : float) : Z :=
  match Prim2SF x with
  | S754_nan => 0
  | S754_zero _ => 0
  | S754_infinity s => if s then 0 else 255
  | S754_finite true _ _ => 0
  | S754_finite false m e => Z.min 255 (round_half_even m e)
  end.

(** [buf[i]]: [undefined] past the end. *)
Definition ta_get (buf : list Z) (i : nat) : jsval :=
  match buf !! i with
  | Some z => JNum (num_of_byte z)
  | None => JUndefined
  end.

(** [buf[i] = v]: converted on the way in, ignored past the end (a typed
    array never grows). *)
Definition ta_set (buf : list Z) (i : nat) (v : jsval) : list Z :=
  <[i := ToUint8Clamp (ToNumber v)]> buf.

(** Every element of a [Uint8ClampedArray] is an unsigned byte. *)
Definition is_byte (z : Z) : Prop := 0 <= z <= 255.
Definition wf_buffer (buf : list Z) : Prop := Forall is_byte buf.

(** ** Pixels and blenders *)

Module rgba.
Record t : Type := mk { r : jsval; g : jsval; b : jsval; a : jsval }.
End rgba.

(** A blender maps the layer pixel and the parent pixel to a result; it may
    leave [a] unset. *)
Definition blender : Type := rgba.t -> rgba.t -> rgba.t.

(** ** The store *)

(** References to the objects of the store. *)
Definition ref : Type := positive.

Module Options.
Record t : Type := mk { blendingMode : string; opacity : float }.
End Options.

(** A [Layer] object.  [pixelData] is a reference: two objects may share
    one array. *)
Record LayerObj : Type := mkLayer {
  options : Options.t;
  layerID : Z;
  width : Z;
  height : Z;
  pixelData : ref
}.

(** The fields of the engine [this.c] that the layer code touches. *)
Module Caman.
Record t : Type := mk {
  dimensions : Z * Z;
  pixelData : ref;
  pixelStack : list ref
}.
End Caman.

(** The store: the engine, the layers, the typed arrays and the registry of
    [Blender]. *)
Record State : Type := mkState {
  c : Caman.t;
  layers : gmap ref LayerObj;
  buffers : gmap ref (list Z);
  blenders : gmap string blender
}.

(** The store with its arrays, or its layers, replaced. *)
Definition set_buffers (h : gmap ref (list Z)) (s : State) : State :=
  mkState (c s) (layers s) h (blenders s).

Definition set_layers (ls : gmap ref LayerObj) (s : State) : State :=
  mkState (c s) ls (buffers s) (blenders s).

(** ** Computations: state and exceptions *)

(** What a call can throw.  [OutOfFuel] belongs to the model of the loop
    and is never reached ([applyToParent_has_fuel]). *)
Inductive Error : Type :=
  | TypeError
  | ConfigurationError (mode : string)
  | OutOfFuel.

Inductive outcome (A : Type) : Type :=
  | Ret (x : A) (s : State)
  | Throw (e : Error) (s : State).
Arguments Ret {A} x s.
Arguments Throw {A} e s.

(** The store a computation leaves behind, however it ends. *)
Definition final {A} (o : outcome A) : State :=
  match o with
  | Ret _ s => s
  | Throw _ s => s
  end.

Definition M (A : Type) : Type := State -> outcome A.

#[global] Instance M_ret : MRet M := fun A x s => Ret x s.
#[global] Instance M_bind : MBind M := fun A B k m s =>
  match m s with
  | Ret x s' => k x s'
  | Throw e s' => Throw e s'
  end.

Definition throw {A} (e : Error) : M A := fun s => Throw e s.
Definition get_state : M State := fun s => Ret s s.
Definition put_state (s : State) : M unit := fun _ => Ret tt s.

(** Property access on a reference that holds no object is a [TypeError],
    as on [undefined]. *)
Definition deref_layer (this : ref) : M LayerObj :=
  s ← get_state;
  match layers s !! this with
  | Some l => mret l
  | None => throw TypeError
  end.

(** The array behind a reference that may be [undefined]. *)
Definition lookup_buffer (s : State) (p : option ref) : option (list Z) :=
  match p with
  | Some q => buffers s !! q
  | None => None
  end.

Definition deref_buffer (p : option ref) : M (list Z) :=
  s ← get_state;
  match lookup_buffer s p with
  | Some buf => mret buf
  | None => throw TypeError
  end.

(** [p.length] *)
Definition ta_length (p : option ref) : M nat :=
  buf ← deref_buffer p; mret (length buf).

(** [p[i]] *)
Definition ta_read (p : option ref) (i : nat) : M jsval :=
  buf ← deref_buffer p; mret (ta_get buf i).

(** [p[i] = v] *)
Definition ta_write (p : option ref) (i : nat) (v : jsval) : M unit :=
  buf ← deref_buffer p;
  s ← get_state;
  match p with
  | Some q => put_state (set_buffers (<[q := ta_set buf i v]> (buffers s)) s)
  | None => throw TypeError
  end.

(** [for (let i = i0; i < bound; i += 4) body(i)], the bound evaluated
    before every round.  The rounds are counted down from [fuel]. *)
Fixpoint for_by4 (fuel : nat) (i : nat) (bound : M nat) (body : nat -> M unit) : M unit :=
  n ← bound;
  if (i <? n)%nat then
    match fuel with
    | O => throw OutOfFuel
    | S fuel' => body i;; for_by4 fuel' (i + 4)%nat bound body
    end
  else mret tt.

(** ** Collaborators that are not part of [layer.js] *)

Module Util.
(** Modelled from the spec: [Util.clampRGB] (util.js is absent), "clamp
    result.r/g/b independently to [0, 255]": below 0 gives 0, above 255
    gives 255, anything else is passed on. *)
Definition clampRGB (val : jsval) : jsval :=
  if js_lt val (JNum 0) then JNum 0
  else if js_gt val (JNum 255) then JNum 255
  else val.
End Util.

Module Blender.
(** Modelled from the spec: [Blender.execute] (blender.js is absent) looks
    the name up in the registry and applies the function found; "an
    unregistered mode name is a fatal configuration error surfaced at this
    call". *)
Definition execute (name : string) (rgbaLayer rgbaParent : rgba.t) : M rgba.t :=
  s ← get_state;
  match (blenders s !! name : option blender) with
  | Some f => mret (f rgbaLayer rgbaParent)
  | None => throw (ConfigurationError name)
  end.
End Blender.

(** A counted loop from 0: the bound itself is fuel enough. *)
Definition for_loop (bound : M nat) (body : nat -> M unit) : M unit :=
  n ← bound; for_by4 n 0 bound body.

(** ** The Layer class *)

(** The layer with its [options] replaced. *)
Definition set_options (o : Options.t) (l : LayerObj) : LayerObj :=
  mkLayer o (layerID l) (width l) (height l) (pixelData l).

(** [this.options.<field> = ...] *)
Definition update_options (this : ref) (f : Options.t -> Options.t) : M unit :=
  l ← deref_layer this;
  s ← get_state;
  put_state (set_layers (<[this := set_options (f (options l)) l]> (layers s)) s).

Module Layer.

(** Sets the blending mode of this layer. *)
Definition setBlendingMode (mode : string) (this : ref) : M ref :=
  update_options this (fun o => Options.mk mode (Options.opacity o));;
  mret this.

(** Sets the opacity of this layer. *)
Definition opacity (opacity : float) (this : ref) : M ref :=
  update_options this
    (fun o => Options.mk (Options.blendingMode o) (opacity / 100)%float);;
  mret this.

(** [copyParent]: [parentData] is bound to [this.pixelData]; the loop runs
    up to [this.c.pixelData.length]. *)
Definition copyParent (this : ref) : M ref :=
  l ← deref_layer this;
  let parentData := Some (pixelData l) in
  for_loop (s ← get_state; ta_length (Some (Caman.pixelData (c s))))
    (fun i =>
       l ← deref_layer this;
       let own := Some (pixelData l) in
       v0 ← ta_read parentData i; ta_write own i v0;;
       v1 ← ta_read parentData (i + 1); ta_write own (i + 1) v1;;
       v2 ← ta_read parentData (i + 2); ta_write own (i + 2) v2;;
       v3 ← ta_read parentData (i + 3); ta_write own (i + 3) v3);;
  mret this.

(** The right-hand side of the three assignments to the parent:
    [p - ((p - res) * (opacity * (a / 255)))]. *)
Definition mix (p res : jsval) (opacity : float) (a : jsval) : jsval :=
  js_sub p (js_mul (js_sub p res) (js_mul (JNum opacity) (js_div a (JNum 255)))).

(** Lines 97 to 102: the three channels clamped, [a] taken from the layer
    pixel when [!result.a]. *)
Definition finish (result rgbaLayer : rgba.t) : rgba.t :=
  let result :=
    rgba.mk (Util.clampRGB (rgba.r result)) (Util.clampRGB (rgba.g result))
            (Util.clampRGB (rgba.b result)) (rgba.a result) in
  if negb (ToBoolean (rgba.a result))
  then rgba.mk (rgba.r result) (rgba.g result) (rgba.b result) (rgba.a rgbaLayer)
  else result.

(** One round of the loop of [applyToParent]. *)
Definition applyPixel (this : ref) (parentData layerData : option ref) (i : nat) : M unit :=
  pr ← ta_read parentData i;
  pg ← ta_read parentData (i + 1);
  pb ← ta_read parentData (i + 2);
  pa ← ta_read parentData (i + 3);
  let rgbaParent := rgba.mk pr pg pb pa in
  lr ← ta_read layerData i;
  lg ← ta_read layerData (i + 1);
  lb ← ta_read layerData (i + 2);
  la ← ta_read layerData (i + 3);
  let rgbaLayer := rgba.mk lr lg lb la in
  l ← deref_layer this;
  result ← Blender.execute (Options.blendingMode (options l)) rgbaLayer rgbaParent;
  let result := finish result rgbaLayer in
  l ← deref_layer this;
  ta_write parentData i
    (mix (rgba.r rgbaParent) (rgba.r result) (Options.opacity (options l)) (rgba.a result));;
  l ← deref_layer this;
  ta_write parentData (i + 1)
    (mix (rgba.g rgbaParent) (rgba.g result) (Options.opacity (options l)) (rgba.a result));;
  l ← deref_layer this;
  ta_write parentData (i + 2)
    (mix (rgba.b rgbaParent) (rgba.b result) (Options.opacity (options l)) (rgba.a result)).

(** [applyToParent]: the parent is the array on top of the engine's
    [pixelStack] ([undefined] when the stack is empty), the layer operand is
    the engine's [pixelData]. *)
Definition applyToParent (this : ref) : M unit :=
  _ ← deref_layer this;
  s ← get_state;
  let parentData := last (Caman.pixelStack (c s)) in
  let layerData := Some (Caman.pixelData (c s)) in
  for_loop (ta_length layerData) (applyPixel this parentData layerData).

End Layer.

(** ** Sample data *)

(** The mode "normal" as the scenario defines it: the result is the layer
    pixel. *)
Definition normal : blender := fun rgbaLayer _ => rgbaLayer.

(** The same mode leaving [a] unset. *)
Definition normal_rgb : blender := fun rgbaLayer _ =>
  rgba.mk (rgba.r rgbaLayer) (rgba.g rgbaLayer) (rgba.b rgbaLayer) JUndefined.

(** "addition", which can leave the byte range. *)
Definition addition : blender := fun rgbaLayer rgbaParent =>
  rgba.mk (JNum (ToNumber (rgba.r rgbaParent) + ToNumber (rgba.r rgbaLayer)))
          (JNum (ToNumber (rgba.g rgbaParent) + ToNumber (rgba.g rgbaLayer)))
          (JNum (ToNumber (rgba.b rgbaParent) + ToNumber (rgba.b rgbaLayer)))
          JUndefined.

(** A mode that produces an alpha of its own: fully transparent black. *)
Definition transparent : blender := fun _ _ =>
  rgba.mk (JNum 0) (JNum 0) (JNum 0) (JNum 0).

(** A mode whose alpha is not a finite number. *)
Definition glare : blender := fun rgbaLayer _ =>
  rgba.mk (rgba.r rgbaLayer) (rgba.g rgbaLayer) (rgba.b rgbaLayer) (JNum infinity).

(** A registry with the modes above. *)
Definition sample_blenders : gmap string blender :=
  {[ "normal"%string := normal; "normal_rgb"%string := normal_rgb;
     "addition"%string := addition; "transparent"%string := transparent;
     "glare"%string := glare ]}.

(** An engine that has made the buffer of layer 1 (array 2) current, with
    the parent (array 1) on top of the stack. *)
Definition sample_state (mode : string) (op : float) (parent layer : list Z) : State :=
  mkState (Caman.mk (1, 1) 2%positive [1%positive])
          {[ 1%positive := mkLayer (Options.mk mode op) 7 1 1 2%positive ]}
          {[ 1%positive := parent; 2%positive := layer ]}
          sample_blenders.

(** A fresh layer (array 2, zero-filled) over an engine whose current array
    (array 1) holds one pixel. *)
Definition fresh_layer_state : State :=
  mkState (Caman.mk (1, 1) 1%positive [])
          {[ 1%positive := mkLayer (Options.mk "normal" 1) 7 1 1 2%positive ]}
          {[ 1%positive := [10; 20; 30; 255]; 2%positive := [0; 0; 0; 0] ]}
          sample_blenders.

(** * The loop as a function of the arrays *)

(** The definitions below restate what the loop of [applyToParent] computes,
    index by index, and name the classes of numbers the proofs work with. *)

(** The pixel that starts at index [i], as the loop reads it. *)
Definition read_rgba (buf : list Z) (i : nat) : rgba.t :=
  rgba.mk (ta_get buf i) (ta_get buf (i + 1)) (ta_get buf (i + 2)) (ta_get buf (i + 3)).

(** What [blend] hands back for pixel [i], after clamping and the alpha
    default. *)
Definition blend_result (f : blender) (L P : list Z) (i : nat) : rgba.t :=
  Layer.finish (f (read_rgba L i) (read_rgba P i)) (read_rgba L i).

(** The parent array after the round for pixel [i]. *)
Definition blend_pixel (f : blender) (op : float) (L P : list Z) (i : nat) : list Z :=
  let p := read_rgba P i in
  let res := blend_result f L P i in
  ta_set
    (ta_set
       (ta_set P i (Layer.mix (rgba.r p) (rgba.r res) op (rgba.a res)))
       (i + 1) (Layer.mix (rgba.g p) (rgba.g res) op (rgba.a res)))
    (i + 2) (Layer.mix (rgba.b p) (rgba.b res) op (rgba.a res)).

(** Channel [k] of a pixel: 0, 1, 2 for R, G, B. *)
Definition channel (k : nat) (px : rgba.t) : jsval :=
  match k with
  | 0%nat => rgba.r px
  | 1%nat => rgba.g px
  | 2%nat => rgba.b px
  | _ => rgba.a px
  end.

(** The byte stored at index [j] of the parent, from the arrays as they
    were before the call: [j / 4 * 4] is the first index of the pixel,
    [j mod 4] the channel. *)
Definition composite_at (f : blender) (op : float) (L P : list Z) (j : nat) : Z :=
  let i := (j / 4 * 4)%nat in
  let res := blend_result f L P i in
  ToUint8Clamp
    (ToNumber (Layer.mix (channel (j mod 4) (read_rgba P i))
                         (channel (j mod 4) res) op (rgba.a res))).

(** The parent array once the pixels that start below [n] are done. *)
Definition composite (f : blender) (op : float) (n : nat) (L P : list Z) : list Z :=
  imap (fun j z =>
          if bool_decide ((j mod 4 ≠ 3 ∧ j / 4 * 4 < n)%nat)
          then composite_at f op L P j else z) P.

(** The 256 values an element can hold. *)
Definition all_bytes : list Z := map Z.of_nat (seq 0 256).

(** Binary64 values that are neither [NaN] nor infinite. *)
Definition sf_finite (x : spec_float) : Prop :=
  match x with
  | S754_zero _ | S754_finite _ _ _ => True
  | _ => False
  end.

(** Non-negative numbers below 256, as binary64 values. *)
Definition sf_small (x : spec_float) : Prop :=
  match x with
  | S754_zero _ => True
  | S754_finite false m e => e <= -45 /\ Z.pos (digits2_pos m) <= 53
  | _ => False
  end.

(** [sf_small] as a test. *)
Definition sf_smallb (x : spec_float) : bool :=
  match x with
  | S754_zero _ => true
  | S754_finite false m e => (e <=? -45) && (Z.pos (digits2_pos m) <=? 53)
  | _ => false
  end.

(** A blend result the interpolation can digest: colour channels that are
    not [NaN], an alpha that is not infinite. *)
Definition tame (res : rgba.t) : Prop :=
  PrimFloat.is_nan (ToNumber (rgba.r res)) = false
  ∧ PrimFloat.is_nan (ToNumber (rgba.g res)) = false
  ∧ PrimFloat.is_nan (ToNumber (rgba.b res)) = false
  ∧ PrimFloat.is_infinity (ToNumber (rgba.a res)) = false.

(** * The constructor *)

(** [new]: the object gets a reference no object of the store has. *)
Definition alloc_buffer (buf : list Z) : M ref :=
  s ← get_state;
  let q := fresh (dom (buffers s)) in
  put_state (set_buffers (<[q := buf]> (buffers s)) s);;
  mret q.

Definition alloc_layer (l : LayerObj) : M ref :=
  s ← get_state;
  let this := fresh (dom (layers s)) in
  put_state (set_layers (<[this := l]> (layers s)) s);;
  mret this.

(** [new Layer(c)] (lines 14 to 41), for the engine of the store.  [uniqid]
    stands for what [Util.uniqid()] hands back (util.js is absent); the
    fields are those set by the constructor, [pixelData] a new zero-filled
    array as long as the engine's current one. *)
Definition new_Layer (uniqid : Z) : M ref :=
  s ← get_state;
  let options := Options.mk "normal" 1 in
  let layerID := uniqid in
  let width := fst (Caman.dimensions (c s)) in
  let height := snd (Caman.dimensions (c s)) in
  n ← ta_length (Some (Caman.pixelData (c s)));
  pixelData ← alloc_buffer (replicate n 0);
  alloc_layer (mkLayer options layerID width height pixelData).

(** An engine whose parent (array 1, two pixels) is longer than the current
    array (array 2, one pixel). *)
Definition long_parent_state : State :=
  mkState (Caman.mk (1, 1) 2%positive [1%positive])
          {[ 1%positive := mkLayer (Options.mk "normal" 1) 7 1 1 2%positive ]}
          {[ 1%positive := [100; 100; 100; 255; 7; 8; 9; 255];
             2%positive := [200; 50; 0; 255] ]}
          sample_blenders.

(** * Verification *)

(** ** Stepping through a computation *)

Ltac run := unfold mbind, mret, M_bind, M_ret, get_state, put_state, throw; cbn.

Lemma bind_Ret {A B} (m : M A) (k : A -> M B) s x s' :
  m s = Ret x s' -> (m ≫= k) s = k x s'.
Proof. intros H. unfold mbind, M_bind. by rewrite H. Qed.

Lemma bind_Throw {A B} (m : M A) (k : A -> M B) s e s' :
  m s = Throw e s' -> (m ≫= k) s = Throw e s'.
Proof. intros H. unfold mbind, M_bind. by rewrite H. Qed.

Lemma set_buffers_id s : set_buffers (buffers s) s = s.
Proof. by destruct s. Qed.

Lemma set_buffers_twice h h' s : set_buffers h (set_buffers h' s) = set_buffers h s.
Proof. done. Qed.

Lemma deref_layer_Some this l s :
  layers s !! this = Some l -> deref_layer this s = Ret l s.
Proof. intros H. unfold deref_layer. run. by rewrite H. Qed.

Lemma deref_layer_None this s :
  layers s !! this = None -> deref_layer this s = Throw TypeError s.
Proof. intros H. unfold deref_layer. run. by rewrite H. Qed.

Lemma deref_buffer_Some q buf s :
  buffers s !! q = Some buf -> deref_buffer (Some q) s = Ret buf s.
Proof. intros H. unfold deref_buffer. run. by rewrite H. Qed.

Lemma deref_buffer_None p s :
  lookup_buffer s p = None -> deref_buffer p s = Throw TypeError s.
Proof. intros H. unfold deref_buffer. run. by rewrite H. Qed.

Lemma ta_length_Some q buf s :
  buffers s !! q = Some buf -> ta_length (Some q) s = Ret (length buf) s.
Proof.
  intros H. unfold ta_length.
  by rewrite (bind_Ret _ _ _ _ _ (deref_buffer_Some _ _ _ H)).
Qed.

Lemma ta_length_None p s :
  lookup_buffer s p = None -> ta_length p s = Throw TypeError s.
Proof.
  intros H. unfold ta_length.
  by rewrite (bind_Throw _ _ _ _ _ (deref_buffer_None _ _ H)).
Qed.

Lemma ta_read_Some q buf i s :
  buffers s !! q = Some buf -> ta_read (Some q) i s = Ret (ta_get buf i) s.
Proof.
  intros H. unfold ta_read.
  by rewrite (bind_Ret _ _ _ _ _ (deref_buffer_Some _ _ _ H)).
Qed.

Lemma ta_read_None p i s :
  lookup_buffer s p = None -> ta_read p i s = Throw TypeError s.
Proof.
  intros H. unfold ta_read.
  by rewrite (bind_Throw _ _ _ _ _ (deref_buffer_None _ _ H)).
Qed.

Lemma ta_write_Some q buf i v s :
  buffers s !! q = Some buf ->
  ta_write (Some q) i v s = Ret tt (set_buffers (<[q := ta_set buf i v]> (buffers s)) s).
Proof.
  intros H. unfold ta_write.
  by rewrite (bind_Ret _ _ _ _ _ (deref_buffer_Some _ _ _ H)).
Qed.

Lemma execute_Some name (f : blender) x y s :
  blenders s !! name = Some f -> Blender.execute name x y s = Ret (f x y) s.
Proof. intros H. unfold Blender.execute. run. by rewrite H. Qed.

Lemma execute_None name x y s :
  blenders s !! name = None ->
  Blender.execute name x y s = Throw (ConfigurationError name) s.
Proof. intros H. unfold Blender.execute. run. by rewrite H. Qed.

(** ** One pixel *)

Lemma applyPixel_ok this l (f : blender) p q L P i s :
  layers s !! this = Some l ->
  blenders s !! Options.blendingMode (options l) = Some f ->
  buffers s !! p = Some P ->
  buffers s !! q = Some L ->
  Layer.applyPixel this (Some p) (Some q) i s =
    Ret tt (set_buffers
              (<[p := blend_pixel f (Options.opacity (options l)) L P i]> (buffers s)) s).
Proof.
  intros Hl Hf Hp Hq. unfold Layer.applyPixel.
  do 4 (erewrite bind_Ret; [| by apply ta_read_Some]).
  do 4 (erewrite bind_Ret; [| by apply ta_read_Some]).
  erewrite bind_Ret; [| by apply deref_layer_Some].
  erewrite bind_Ret; [| by apply execute_Some].
  erewrite bind_Ret; [| by apply deref_layer_Some].
  erewrite bind_Ret; [| by apply ta_write_Some].
  erewrite bind_Ret; [| by apply deref_layer_Some].
  erewrite bind_Ret; [| apply ta_write_Some; cbn; apply lookup_insert_eq].
  erewrite bind_Ret; [| by apply deref_layer_Some].
  erewrite ta_write_Some; [| cbn; apply lookup_insert_eq].
  cbn. rewrite !insert_insert_eq. done.
Qed.

(** ** The whole loop *)

(** Arithmetic on indices with division by the pixel size. *)
Ltac div_lia := zify; Z.to_euclidean_division_equations; lia.

Lemma lookup_composite f op n L P j :
  composite f op n L P !! j =
    (fun z => if bool_decide ((j mod 4 ≠ 3 ∧ j / 4 * 4 < n)%nat)
              then composite_at f op L P j else z) <$> P !! j.
Proof. unfold composite. by rewrite list_lookup_imap. Qed.

Lemma length_composite f op n L P : length (composite f op n L P) = length P.
Proof. unfold composite. by rewrite length_imap. Qed.

Lemma lookup_composite_untouched f op n L P j :
  ¬ (j mod 4 ≠ 3 ∧ j / 4 * 4 < n)%nat -> composite f op n L P !! j = P !! j.
Proof.
  intros H. rewrite lookup_composite, bool_decide_eq_false_2 by done.
  by destruct (P !! j).
Qed.

Lemma lookup_composite_written f op n L P j i k :
  (i mod 4 = 0)%nat -> (k < 3)%nat -> j = (i + k)%nat ->
  (i < n)%nat -> (j < length P)%nat ->
  composite f op n L P !! j =
    Some (ToUint8Clamp
            (ToNumber (Layer.mix (channel k (read_rgba P i))
                                 (channel k (blend_result f L P i)) op
                                 (rgba.a (blend_result f L P i))))).
Proof.
  intros Hi Hk -> Hn Hj. rewrite lookup_composite.
  destruct (lookup_lt_is_Some_2 P _ Hj) as [z ->].
  rewrite bool_decide_eq_true_2 by div_lia.
  unfold composite_at.
  replace ((i + k) / 4 * 4)%nat with i by div_lia.
  replace ((i + k) mod 4)%nat with k by div_lia. done.
Qed.

Lemma composite_0 f op L P : composite f op 0 L P = P.
Proof. apply list_eq; intros j. apply lookup_composite_untouched. lia. Qed.

Lemma lookup_composite_ext f op n m L P j :
  ((j mod 4 ≠ 3 ∧ j / 4 * 4 < n) ↔ (j mod 4 ≠ 3 ∧ j / 4 * 4 < m))%nat ->
  composite f op n L P !! j = composite f op m L P !! j.
Proof. intros H. rewrite !lookup_composite. by rewrite (bool_decide_ext _ _ H). Qed.

Lemma composite_past_end f op n L P :
  (n mod 4 = 0)%nat -> (length L ≤ n < length L + 4)%nat ->
  composite f op n L P = composite f op (length L) L P.
Proof.
  intros Hn Hlen. apply list_eq; intros j. apply lookup_composite_ext. div_lia.
Qed.

Lemma read_rgba_composite f op i L P :
  (i mod 4 = 0)%nat -> read_rgba (composite f op i L P) i = read_rgba P i.
Proof.
  intros Hi. unfold read_rgba, ta_get.
  rewrite !lookup_composite_untouched by div_lia. done.
Qed.

Lemma blend_pixel_composite f op i L L' P :
  (i mod 4 = 0)%nat ->
  read_rgba L' i = read_rgba L i ->
  blend_pixel f op L' (composite f op i L P) i = composite f op (i + 4) L P.
Proof.
  intros Hi HL. apply list_eq; intros j.
  unfold blend_pixel, blend_result, ta_set.
  rewrite HL, read_rgba_composite by done.
  destruct (decide (j < length P)%nat) as [Hlt|Hge]; cycle 1.
  { rewrite !lookup_ge_None_2; [done | |];
      rewrite ?length_insert, length_composite; lia. }
  rewrite !list_lookup_insert, !length_insert, length_composite.
  repeat case_decide.
  - rewrite (lookup_composite_written _ _ _ _ _ _ i 2) by lia. done.
  - rewrite (lookup_composite_written _ _ _ _ _ _ i 1) by lia. done.
  - rewrite (lookup_composite_written _ _ _ _ _ _ i 0) by lia. done.
  - apply lookup_composite_ext. div_lia.
Qed.

Lemma for_by4_unfold fuel i bound body :
  for_by4 fuel i bound body =
    (n ← bound;
     if (i <? n)%nat then
       match fuel with
       | O => throw OutOfFuel
       | S fuel' => body i;; for_by4 fuel' (i + 4)%nat bound body
       end
     else mret tt).
Proof. by destruct fuel. Qed.

(** The loop of [applyToParent], started at pixel [i] with the pixels below
    [i] done, finishes the parent.  The layer operand [q] may be the parent
    array [p] itself. *)
Lemma for_by4_applyPixel this l (f : blender) p q L P s :
  layers s !! this = Some l ->
  blenders s !! Options.blendingMode (options l) = Some f ->
  buffers s !! p = Some P ->
  buffers s !! q = Some L ->
  let op := Options.opacity (options l) in
  forall fuel i,
    (i mod 4 = 0)%nat -> (i < length L + 4)%nat -> (length L ≤ i + fuel)%nat ->
    for_by4 fuel i (ta_length (Some q)) (Layer.applyPixel this (Some p) (Some q))
      (set_buffers (<[p := composite f op i L P]> (buffers s)) s) =
    Ret tt (set_buffers (<[p := composite f op (length L) L P]> (buffers s)) s).
Proof.
  intros Hl Hf Hp Hq op fuel.
  induction fuel as [|fuel IH]; intros i Hi Hlt Hfuel.
  all: rewrite for_by4_unfold.
  all: set (si := set_buffers (<[p := composite f op i L P]> (buffers s)) s).
  all: assert (exists Lc, buffers si !! q = Some Lc ∧ length Lc = length L
                          ∧ read_rgba Lc i = read_rgba L i) as (Lc & HLc & Hlen & Hrd).
  1,3: (destruct (decide (q = p)) as [->|Hne];
        [ exists (composite f op i L P); cbn; rewrite lookup_insert_eq;
          assert (L = P) as -> by congruence;
          by rewrite length_composite, read_rgba_composite
        | exists L; cbn; by rewrite lookup_insert_ne ]).
  all: erewrite bind_Ret; [| by apply ta_length_Some].
  all: rewrite Hlen; destruct (Nat.ltb_spec i (length L)) as [Hin|Hout].
  - lia.
  - run. unfold si. by rewrite composite_past_end by lia.
  - erewrite bind_Ret; cycle 1.
    { eapply applyPixel_ok; [exact Hl | exact Hf | | exact HLc].
      cbn. apply lookup_insert_eq. }
    unfold si. cbn. rewrite insert_insert_eq.
    rewrite blend_pixel_composite by done.
    apply IH; div_lia.
  - run. unfold si. by rewrite composite_past_end by lia.
Qed.

Lemma applyToParent_ok this l (f : blender) p L P s :
  layers s !! this = Some l ->
  blenders s !! Options.blendingMode (options l) = Some f ->
  last (Caman.pixelStack (c s)) = Some p ->
  buffers s !! p = Some P ->
  buffers s !! Caman.pixelData (c s) = Some L ->
  Layer.applyToParent this s =
    Ret tt (set_buffers
              (<[p := composite f (Options.opacity (options l)) (length L) L P]>
                 (buffers s)) s).
Proof.
  intros Hl Hf Hlast Hp Hq. unfold Layer.applyToParent.
  erewrite bind_Ret; [| by apply deref_layer_Some].
  unfold get_state at 1. unfold mbind at 1, M_bind at 1. rewrite Hlast.
  unfold for_loop.
  erewrite bind_Ret; [| by apply ta_length_Some].
  pose proof (for_by4_applyPixel this l f p _ L P s Hl Hf Hp Hq (length L) 0%nat)
    as Hloop.
  cbn zeta in Hloop.
  rewrite composite_0, (insert_id (buffers s) p P Hp), set_buffers_id in Hloop.
  apply Hloop; [done | lia | lia].
Qed.

(** ** The ways [applyToParent] ends *)

Lemma applyToParent_no_layer this s :
  layers s !! this = None -> Layer.applyToParent this s = Throw TypeError s.
Proof.
  intros H. unfold Layer.applyToParent.
  by erewrite bind_Throw; [| by apply deref_layer_None].
Qed.

Lemma applyToParent_no_layerData this l s :
  layers s !! this = Some l ->
  buffers s !! Caman.pixelData (c s) = None ->
  Layer.applyToParent this s = Throw TypeError s.
Proof.
  intros Hl H. unfold Layer.applyToParent.
  erewrite bind_Ret; [| by apply deref_layer_Some].
  unfold get_state at 1. unfold mbind at 1, M_bind at 1. unfold for_loop.
  by erewrite bind_Throw; [| by apply ta_length_None].
Qed.

Lemma applyToParent_empty this l s :
  layers s !! this = Some l ->
  buffers s !! Caman.pixelData (c s) = Some [] ->
  Layer.applyToParent this s = Ret tt s.
Proof.
  intros Hl H. unfold Layer.applyToParent.
  erewrite bind_Ret; [| by apply deref_layer_Some].
  unfold get_state at 1. unfold mbind at 1, M_bind at 1. unfold for_loop.
  erewrite bind_Ret; [| by apply ta_length_Some].
  rewrite for_by4_unfold.
  by erewrite bind_Ret; [| by apply ta_length_Some].
Qed.

(** With at least one element in the layer operand the first round runs. *)
Lemma applyToParent_first_round this l z L s :
  layers s !! this = Some l ->
  buffers s !! Caman.pixelData (c s) = Some (z :: L) ->
  Layer.applyToParent this s =
    (Layer.applyPixel this (last (Caman.pixelStack (c s)))
       (Some (Caman.pixelData (c s))) 0;;
     for_by4 (length L) 4 (ta_length (Some (Caman.pixelData (c s))))
       (Layer.applyPixel this (last (Caman.pixelStack (c s)))
          (Some (Caman.pixelData (c s))))) s.
Proof.
  intros Hl H. unfold Layer.applyToParent.
  erewrite bind_Ret; [| by apply deref_layer_Some].
  unfold get_state at 1. unfold mbind at 1, M_bind at 1. unfold for_loop.
  erewrite bind_Ret; [| by apply ta_length_Some].
  rewrite for_by4_unfold.
  by erewrite bind_Ret; [| by apply ta_length_Some].
Qed.

Lemma applyToParent_no_parent this l z L s :
  layers s !! this = Some l ->
  buffers s !! Caman.pixelData (c s) = Some (z :: L) ->
  lookup_buffer s (last (Caman.pixelStack (c s))) = None ->
  Layer.applyToParent this s = Throw TypeError s.
Proof.
  intros Hl H Hp. erewrite applyToParent_first_round by done.
  erewrite bind_Throw; [done |]. unfold Layer.applyPixel.
  by erewrite bind_Throw; [| by apply ta_read_None].
Qed.

Lemma applyToParent_unregistered this l z L p P s :
  layers s !! this = Some l ->
  buffers s !! Caman.pixelData (c s) = Some (z :: L) ->
  last (Caman.pixelStack (c s)) = Some p ->
  buffers s !! p = Some P ->
  blenders s !! Options.blendingMode (options l) = None ->
  Layer.applyToParent this s =
    Throw (ConfigurationError (Options.blendingMode (options l))) s.
Proof.
  intros Hl H Hlast Hp Hf. erewrite applyToParent_first_round by done.
  rewrite Hlast.
  erewrite bind_Throw; [done |]. unfold Layer.applyPixel.
  do 8 (erewrite bind_Ret; [| by apply ta_read_Some]).
  erewrite bind_Ret; [| by apply deref_layer_Some].
  by erewrite bind_Throw; [| by apply execute_None].
Qed.

(** [applyToParent] either stops before the first write, with an error of
    the program's own, or finishes with the parent composited. *)
Lemma applyToParent_cases this s :
  (exists e, e ≠ OutOfFuel ∧ Layer.applyToParent this s = Throw e s)
  ∨ Layer.applyToParent this s = Ret tt s
  ∨ (exists l (f : blender) p L P,
       layers s !! this = Some l
       ∧ blenders s !! Options.blendingMode (options l) = Some f
       ∧ last (Caman.pixelStack (c s)) = Some p
       ∧ buffers s !! p = Some P
       ∧ buffers s !! Caman.pixelData (c s) = Some L
       ∧ Layer.applyToParent this s =
           Ret tt (set_buffers
                     (<[p := composite f (Options.opacity (options l)) (length L) L P]>
                        (buffers s)) s)).
Proof.
  destruct (layers s !! this) as [l|] eqn:Hl;
    [| left; eexists; split; [| by apply applyToParent_no_layer]; done].
  destruct (buffers s !! Caman.pixelData (c s)) as [L|] eqn:HL;
    [| left; eexists; split; [| by eapply applyToParent_no_layerData]; done].
  destruct L as [|z L];
    [right; left; by eapply applyToParent_empty |].
  destruct (last (Caman.pixelStack (c s))) as [p|] eqn:Hlast;
    [| left; eexists; split;
       [| eapply applyToParent_no_parent; eauto; by rewrite Hlast]; done].
  destruct (buffers s !! p) as [P|] eqn:HP;
    [| left; eexists; split;
       [| eapply applyToParent_no_parent; eauto; by rewrite Hlast]; done].
  destruct (blenders s !! Options.blendingMode (options l)) as [f|] eqn:Hf;
    [| left; eexists; split; [| by eapply applyToParent_unregistered]; done].
  right; right. exists l, f, p, (z :: L), P.
  repeat split; try done. by apply applyToParent_ok.
Qed.

(** The rounds counted from the length of the layer operand always
    suffice. *)
Lemma applyToParent_has_fuel this s s' :
  Layer.applyToParent this s ≠ Throw OutOfFuel s'.
Proof.
  destruct (applyToParent_cases this s)
    as [(e & He & Hr) | [Hr | (l & f & p & L & P & _ & _ & _ & _ & _ & Hr)]];
    rewrite Hr; congruence.
Qed.

(** ** The compositing formula *)

Lemma channel_finish k res px :
  (k < 3)%nat -> channel k (Layer.finish res px) = Util.clampRGB (channel k res).
Proof.
  intros Hk. unfold Layer.finish. cbn [rgba.a].
  destruct (negb (ToBoolean (rgba.a res)));
    destruct k as [|[|[|k]]]; try done; lia.
Qed.

Lemma alpha_finish res px :
  rgba.a (Layer.finish res px) =
    if ToBoolean (rgba.a res) then rgba.a res else rgba.a px.
Proof. unfold Layer.finish. cbn [rgba.a]. by destruct (ToBoolean (rgba.a res)). Qed.

Lemma channel_read_rgba k buf i :
  (k < 4)%nat -> channel k (read_rgba buf i) = ta_get buf (i + k).
Proof.
  intros Hk. destruct k as [|[|[|[|k]]]]; try lia; cbn; by rewrite ?Nat.add_0_r.
Qed.

(** [clampRGB], seen as a function on numbers. *)
Lemma ToNumber_clampRGB v :
  ToNumber (Util.clampRGB v) =
    (if ToNumber v <? 0 then 0 else if 255 <? ToNumber v then 255 else ToNumber v)%float.
Proof.
  unfold Util.clampRGB, js_lt, js_gt. cbn [ToNumber].
  by destruct (ToNumber v <? 0)%float, (255 <? ToNumber v)%float.
Qed.

(** The byte the loop stores for channel [k] of the pixel at [i], written
    out from the elements of the two arrays: the blend function is applied
    to the two pixels, its colour clamped to [0, 255], its alpha replaced
    by the layer pixel's when falsy, and the parent channel moved toward
    the result by the weight. *)
Lemma composite_channel (f : blender) op n L P (i k : nat) :
  (i mod 4 = 0)%nat -> (k < 3)%nat -> (i < n)%nat -> (i + k < length P)%nat ->
  let layerRGBA :=
    rgba.mk (ta_get L i) (ta_get L (i + 1)) (ta_get L (i + 2)) (ta_get L (i + 3)) in
  let parentRGBA :=
    rgba.mk (ta_get P i) (ta_get P (i + 1)) (ta_get P (i + 2)) (ta_get P (i + 3)) in
  let blended := f layerRGBA parentRGBA in
  let clamp := fun x : float =>
    (if x <? 0 then 0 else if 255 <? x then 255 else x)%float in
  let resultChannel := clamp (ToNumber (channel k blended)) in
  let resultAlpha :=
    if ToBoolean (rgba.a blended) then ToNumber (rgba.a blended)
    else ToNumber (rgba.a layerRGBA) in
  let w := (op * (resultAlpha / 255))%float in
  let parentChannel := ToNumber (ta_get P (i + k)) in
  composite f op n L P !! (i + k)%nat =
    Some (ToUint8Clamp (parentChannel - (parentChannel - resultChannel) * w)%float).
Proof.
  intros Hi Hk Hn HkP. cbn zeta.
  rewrite (lookup_composite_written _ _ _ _ _ _ i k) by done.
  f_equal. unfold Layer.mix, js_sub, js_mul, js_div. cbn [ToNumber].
  rewrite channel_read_rgba by lia.
  unfold blend_result, read_rgba.
  rewrite channel_finish, alpha_finish, ToNumber_clampRGB by done.
  by destruct (ToBoolean _).
Qed.



(** ** Where the operands come from *)

(** C3.  When the layer is the engine's current one (the engine's
    [pixelData] is the layer's own array), then for every pixel the
    layer-side operand of the blend function is read from the layer's own
    [pixelData] and the parent-side operand from the array at index
    [length - 1] of the engine's [pixelStack]: the byte stored for each of
    R, G, B is the interpolation toward the blend of exactly these two
    pixels. *)
Theorem applyToParent_reads_own_buffer s this l (f : blender) p own P (i k : nat) :
  layers s !! this = Some l ->
  blenders s !! Options.blendingMode (options l) = Some f ->
  Caman.pixelData (c s) = pixelData l ->
  Caman.pixelStack (c s) !! (length (Caman.pixelStack (c s)) - 1)%nat = Some p ->
  buffers s !! pixelData l = Some own ->
  buffers s !! p = Some P ->
  (i mod 4 = 0)%nat -> (i < length own)%nat ->
  (k < 3)%nat -> (i + k < length P)%nat ->
  let layerRGBA :=
    rgba.mk (ta_get own i) (ta_get own (i + 1)) (ta_get own (i + 2)) (ta_get own (i + 3)) in
  let parentRGBA :=
    rgba.mk (ta_get P i) (ta_get P (i + 1)) (ta_get P (i + 2)) (ta_get P (i + 3)) in
  let blended := f layerRGBA parentRGBA in
  let clamp := fun x : float =>
    (if x <? 0 then 0 else if 255 <? x then 255 else x)%float in
  let resultChannel := clamp (ToNumber (channel k blended)) in
  let resultAlpha :=
    if ToBoolean (rgba.a blended) then ToNumber (rgba.a blended)
    else ToNumber (rgba.a layerRGBA) in
  let w := (Options.opacity (options l) * (resultAlpha / 255))%float in
  let parentChannel := ToNumber (ta_get P (i + k)) in
  exists s' P',
    Layer.applyToParent this s = Ret tt s'
    ∧ buffers s' !! p = Some P'
    ∧ P' !! (i + k)%nat =
        Some (ToUint8Clamp (parentChannel - (parentChannel - resultChannel) * w)%float).
Proof.
  intros Hl Hf Hcur Hlast Hown Hp Hi HiL Hk HkP. cbn zeta.
  assert (last (Caman.pixelStack (c s)) = Some p) as Hlast'.
  { rewrite last_lookup.
    by replace (pred _) with (length (Caman.pixelStack (c s)) - 1)%nat by lia. }
  rewrite <- Hcur in Hown.
  eexists _, _. split; [by eapply applyToParent_ok |].
  split; [cbn; apply lookup_insert_eq |].
  by apply composite_channel.
Qed.

Lemma applyToParent_reads_own_buffer_witness :
  let s := sample_state "addition" 0.5 [100; 60; 20; 255] [200; 250; 0; 255] in
  Caman.pixelData (c s) = 2%positive
  ∧ buffers s !! 2%positive = Some [200; 250; 0; 255]
  ∧ exists s' P',
      Layer.applyToParent 1%positive s = Ret tt s'
      ∧ buffers s' !! 1%positive = Some P'
      ∧ P' !! 0%nat = Some 178.
Proof.
  intros s. split; [reflexivity |]. split; [reflexivity |].
  destruct (applyToParent_reads_own_buffer s 1%positive
              (mkLayer (Options.mk "addition" 0.5) 7 1 1 2%positive)
              addition 1%positive [200; 250; 0; 255] [100; 60; 20; 255] 0%nat 0%nat
              eq_refl eq_refl eq_refl eq_refl eq_refl eq_refl)
    as (s' & P' & Hrun & Hp & Hv); [reflexivity | cbn; lia | lia | cbn; lia |].
  exists s', P'. split; [exact Hrun |]. split; [exact Hp |].
  vm_compute in Hv. exact Hv.
Defined.

(** ** Failure *)

(** C4, as amended.  With an unregistered mode, a layer operand of at least
    one element and a parent on the stack, [applyToParent] throws the
    configuration error and the store is as before the call; and whenever
    [applyToParent] throws, the store is as before the call. *)
Theorem applyToParent_fails_before_writing :
  (forall s this l z L p P,
     layers s !! this = Some l ->
     blenders s !! Options.blendingMode (options l) = None ->
     buffers s !! Caman.pixelData (c s) = Some (z :: L) ->
     last (Caman.pixelStack (c s)) = Some p ->
     buffers s !! p = Some P ->
     Layer.applyToParent this s =
       Throw (ConfigurationError (Options.blendingMode (options l))) s)
  ∧ (forall s this e s', Layer.applyToParent this s = Throw e s' -> s' = s).
Proof.
  split.
  - intros. by eapply applyToParent_unregistered.
  - intros s this e s' H.
    destruct (applyToParent_cases this s)
      as [(e' & _ & He) | [Hr | (l & f & p & L & P & _ & _ & _ & _ & _ & Hr)]];
      rewrite H in *; congruence.
Qed.

Lemma applyToParent_fails_before_writing_witness :
  let s := sample_state "sepia" 1 [100; 100; 100; 255] [200; 50; 0; 255] in
  Layer.applyToParent 1%positive s = Throw (ConfigurationError "sepia") s.
Proof.
  intros s.
  apply (proj1 applyToParent_fails_before_writing s 1%positive
           (mkLayer (Options.mk "sepia" 1) 7 1 1 2%positive)
           200 [50; 0; 255] 1%positive [100; 100; 100; 255]); reflexivity.
Defined.

(** The claim as it stands fails on an image without pixels: the loop body
    never runs, the mode is never looked up, and the call returns. *)
Lemma applyToParent_unregistered_counterexample :
  let s := sample_state "sepia" 1 [] [] in
  blenders s !! "sepia"%string = None
  ∧ Layer.applyToParent 1%positive s = Ret tt s.
Proof.
  intros s. split; [reflexivity |].
  by eapply applyToParent_empty.
Qed.

(** ** The alpha channel *)

(** C5.  Whatever the mode, the opacity and the arrays, every alpha byte
    (index [4k + 3]) of every array, the parent included, is after
    [applyToParent] what it was before. *)
Theorem applyToParent_alpha_invariant this s (q : ref) (k : nat) :
  buffers (final (Layer.applyToParent this s)) !! q ≫= (fun buf => buf !! (4 * k + 3)%nat)
  = buffers s !! q ≫= (fun buf => buf !! (4 * k + 3)%nat).
Proof.
  destruct (applyToParent_cases this s)
    as [(e' & _ & He) | [Hr | (l & f & p & L & P & _ & _ & _ & Hp & _ & Hr)]];
    rewrite ?He, ?Hr; try done.
  cbn. destruct (decide (q = p)) as [->|Hne].
  - rewrite lookup_insert_eq, Hp. cbn.
    apply lookup_composite_untouched. div_lia.
  - by rewrite lookup_insert_ne.
Qed.

(** ** Stored bytes *)

Lemma round_half_even_nonneg m e : 0 <= round_half_even m e.
Proof.
  unfold round_half_even. destruct e as [|e|k].
  - lia.
  - pose proof (Z.pow_nonneg 2 (Z.pos e)). nia.
  - assert (0 < Z.pow_pos 2 k) by (rewrite Z.pow_pos_fold; apply Z.pow_pos_nonneg; lia).
    pose proof (Z.div_pos (Z.pos m) (Z.pow_pos 2 k)).
    destruct (_ ?= _); [destruct (Z.even _) | |]; lia.
Qed.

Lemma ToUint8Clamp_byte x : is_byte (ToUint8Clamp x).
Proof.
  unfold ToUint8Clamp, is_byte.
  destruct (Prim2SF x) as [? | [] | | [] m e]; try lia.
  pose proof (round_half_even_nonneg m e). lia.
Qed.

Lemma is_byte_all_bytes z : is_byte z -> In z all_bytes.
Proof.
  intros [H0 H255]. unfold all_bytes.
  rewrite <- (Z2Nat.id z) by done.
  apply in_map, in_seq. lia.
Qed.

(** A byte read from an array and written back is the same byte. *)
Lemma ToUint8Clamp_num_of_byte z : is_byte z -> ToUint8Clamp (num_of_byte z) = z.
Proof.
  intros Hz.
  assert (forallb (fun z => ToUint8Clamp (num_of_byte z) =? z) all_bytes = true) as Hall
    by (vm_compute; reflexivity).
  rewrite forallb_forall in Hall.
  apply Z.eqb_eq, Hall, is_byte_all_bytes, Hz.
Qed.

Lemma wf_buffer_composite f op n L P : wf_buffer P -> wf_buffer (composite f op n L P).
Proof.
  unfold wf_buffer. rewrite !Forall_lookup. intros HP j z.
  rewrite lookup_composite. destruct (P !! j) as [z0|] eqn:Hz0; [| done].
  cbn. intros [= <-]. case_bool_decide; [apply ToUint8Clamp_byte | by eapply HP].
Qed.

(** C8.  Whatever the blend function returns, also outside [0, 255], every
    array, the parent with its R, G and B channels included, holds only
    integers within [0, 255] after [applyToParent], as it did before. *)
Theorem applyToParent_stores_bytes this s :
  (forall q buf, buffers s !! q = Some buf -> wf_buffer buf) ->
  forall q buf,
    buffers (final (Layer.applyToParent this s)) !! q = Some buf -> wf_buffer buf.
Proof.
  intros Hwf q buf.
  destruct (applyToParent_cases this s)
    as [(e' & _ & He) | [Hr | (l & f & p & L & P & _ & _ & _ & Hp & _ & Hr)]];
    rewrite ?He, ?Hr; cbn; try apply Hwf.
  destruct (decide (q = p)) as [->|Hne].
  - rewrite lookup_insert_eq. intros [= <-]. apply wf_buffer_composite. by eapply Hwf.
  - rewrite lookup_insert_ne by done. apply Hwf.
Qed.

Lemma sample_state_wf mode op parent layer :
  wf_buffer parent -> wf_buffer layer ->
  forall q buf, buffers (sample_state mode op parent layer) !! q = Some buf -> wf_buffer buf.
Proof.
  intros HP HL q buf. unfold sample_state. cbn [buffers].
  destruct (decide (q = 1%positive)) as [->|H1].
  { rewrite lookup_insert_eq. by intros [= <-]. }
  rewrite lookup_insert_ne by done.
  rewrite lookup_singleton_Some. by intros [_ <-].
Qed.

Lemma wf_buffer_check buf :
  forallb (fun z => (0 <=? z) && (z <=? 255)) buf = true -> wf_buffer buf.
Proof.
  rewrite forallb_forall. intros H. apply Forall_forall. intros z Hz.
  apply list_elem_of_In, H in Hz. unfold is_byte. lia.
Qed.

Lemma applyToParent_stores_bytes_witness :
  let s := sample_state "addition" 1 [200; 200; 200; 255] [200; 100; 0; 255] in
  buffers (final (Layer.applyToParent 1%positive s)) !! 1%positive
    = Some [255; 255; 200; 255]
  ∧ wf_buffer [255; 255; 200; 255].
Proof.
  intros s. split; [vm_compute; reflexivity |].
  refine (applyToParent_stores_bytes 1%positive s _ 1%positive _ _);
    [ apply sample_state_wf; apply wf_buffer_check; reflexivity
    | vm_compute; reflexivity ].
Defined.

(** ** Configuration *)

Lemma update_options_ok this l g s :
  layers s !! this = Some l ->
  update_options this g s =
    Ret tt (set_layers (<[this := set_options (g (options l)) l]> (layers s)) s).
Proof.
  intros Hl. unfold update_options.
  by erewrite bind_Ret; [| by apply deref_layer_Some].
Qed.

(** C9.  [opacity(percent)] stores [percent / 100], for every number
    [percent] and with no clamping, and returns the layer;
    [setBlendingMode(name)] stores the name as given and returns the
    layer. *)
Theorem setters_store_and_chain s this l (percent : float) (name : string) :
  layers s !! this = Some l ->
  Layer.opacity percent this s =
    Ret this
      (set_layers
         (<[this := set_options
                      (Options.mk (Options.blendingMode (options l)) (percent / 100)%float) l]>
            (layers s)) s)
  ∧ Layer.setBlendingMode name this s =
      Ret this
        (set_layers
           (<[this := set_options (Options.mk name (Options.opacity (options l))) l]>
              (layers s)) s).
Proof.
  intros Hl. unfold Layer.opacity, Layer.setBlendingMode.
  split; by erewrite bind_Ret; [| by apply update_options_ok].
Qed.

Lemma setters_store_and_chain_witness :
  let s := sample_state "normal" 1 [100; 100; 100; 255] [200; 50; 0; 255] in
  (exists s', Layer.opacity 250 1%positive s = Ret 1%positive s'
              ∧ (Options.opacity ∘ options) <$> layers s' !! 1%positive = Some 2.5%float)
  ∧ (exists s', Layer.setBlendingMode "no such mode" 1%positive s = Ret 1%positive s'
                ∧ (Options.blendingMode ∘ options) <$> layers s' !! 1%positive
                    = Some "no such mode"%string).
Proof.
  intros s.
  destruct (setters_store_and_chain s 1%positive
              (mkLayer (Options.mk "normal" 1) 7 1 1 2%positive) 250 "no such mode"
              eq_refl) as [Ho Hm].
  split; eexists; (split; [eassumption | vm_compute; reflexivity]).
Defined.

(** ** copyParent *)

Lemma ta_set_get_id buf i : wf_buffer buf -> ta_set buf i (ta_get buf i) = buf.
Proof.
  intros Hwf. unfold ta_set, ta_get.
  destruct (buf !! i) as [z|] eqn:Hz.
  - cbn [ToNumber]. rewrite ToUint8Clamp_num_of_byte by (by eapply Forall_lookup_1).
    by apply list_insert_id.
  - apply list_insert_ge. by apply lookup_ge_None.
Qed.

Lemma ta_write_back q buf i s :
  buffers s !! q = Some buf -> wf_buffer buf ->
  ta_write (Some q) i (ta_get buf i) s = Ret tt s.
Proof.
  intros Hq Hwf. erewrite ta_write_Some by done.
  by rewrite ta_set_get_id, insert_id, set_buffers_id.
Qed.

(** A loop whose rounds and bound leave the state alone ends in that
    state. *)
Lemma for_by4_skip n bound body s :
  bound s = Ret n s ->
  (forall i, body i s = Ret tt s) ->
  forall fuel i, (n ≤ i + fuel)%nat -> for_by4 fuel i bound body s = Ret tt s.
Proof.
  intros Hb Hbody fuel. induction fuel as [|fuel IH]; intros i Hfuel.
  all: rewrite for_by4_unfold; erewrite bind_Ret by done.
  all: destruct (Nat.ltb_spec i n); [| done].
  - lia.
  - erewrite bind_Ret by done. apply IH. lia.
Qed.

Lemma copyParent_ok this l own E s :
  layers s !! this = Some l ->
  buffers s !! pixelData l = Some own ->
  wf_buffer own ->
  buffers s !! Caman.pixelData (c s) = Some E ->
  Layer.copyParent this s = Ret this s.
Proof.
  intros Hl Hown Hwf HE. unfold Layer.copyParent.
  erewrite bind_Ret; [| by apply deref_layer_Some].
  erewrite bind_Ret; [done |].
  assert ((s ← get_state; ta_length (Some (Caman.pixelData (c s)))) s
          = Ret (length E) s) as Hbound.
  { erewrite bind_Ret; [| reflexivity]. by apply ta_length_Some. }
  unfold for_loop. erewrite bind_Ret by exact Hbound.
  eapply for_by4_skip; [exact Hbound | | lia].
  intros i.
  erewrite bind_Ret; [| by apply deref_layer_Some].
  do 4 (erewrite bind_Ret; [| by apply ta_read_Some];
        try (erewrite bind_Ret; [| by apply ta_write_back])).
  by apply ta_write_back.
Qed.

(** C10.  [copyParent] reads from the layer's own array and writes each
    element back to where it came from: the array, and the whole store, are
    unchanged, and the layer is returned. *)
Theorem copyParent_leaves_layer_unchanged this l own E s :
  layers s !! this = Some l ->
  buffers s !! pixelData l = Some own ->
  wf_buffer own ->
  buffers s !! Caman.pixelData (c s) = Some E ->
  exists s',
    Layer.copyParent this s = Ret this s'
    ∧ buffers s' !! pixelData l = Some own
    ∧ s' = s.
Proof.
  intros Hl Hown Hwf HE. exists s. by erewrite copyParent_ok.
Qed.

Lemma copyParent_leaves_layer_unchanged_witness :
  exists s',
    Layer.copyParent 1%positive fresh_layer_state = Ret 1%positive s'
    ∧ buffers s' !! 2%positive = Some [0; 0; 0; 0]
    ∧ s' = fresh_layer_state.
Proof.
  apply (copyParent_leaves_layer_unchanged 1%positive
           (mkLayer (Options.mk "normal" 1) 7 1 1 2%positive)
           [0; 0; 0; 0] [10; 20; 30; 255] fresh_layer_state);
    [reflexivity | reflexivity | apply wf_buffer_check; reflexivity | reflexivity].
Defined.

(** C2, at a failing input.  In [fresh_layer_state] the engine exposes
    (10, 20, 30, 255); after [copyParent] the layer's array is still
    (0, 0, 0, 0), not a copy of the parent. *)
Theorem copyParent_does_not_copy_parent :
  let s := fresh_layer_state in
  buffers s !! Caman.pixelData (c s) = Some [10; 20; 30; 255]
  ∧ buffers (final (Layer.copyParent 1%positive s)) !! 2%positive = Some [0; 0; 0; 0].
Proof. split; vm_compute; reflexivity. Qed.

(** ** The alpha default *)

(** C7, at a failing input.  The mode "transparent" produces alpha 0; the
    test [!result.a] takes that 0 for a missing value and puts the layer's
    alpha 255 in its place, so that at opacity 1 the parent (100, 100, 100)
    is overwritten with the result (0, 0, 0) instead of being kept by a
    weight of 0. *)
Theorem alpha_zero_is_replaced :
  let s := sample_state "transparent" 1 [100; 100; 100; 255] [9; 9; 9; 255] in
  rgba.a (transparent (read_rgba [9; 9; 9; 255] 0) (read_rgba [100; 100; 100; 255] 0))
    = JNum 0
  ∧ rgba.a (blend_result transparent [9; 9; 9; 255] [100; 100; 100; 255] 0) = JNum 255
  ∧ buffers (final (Layer.applyToParent 1%positive s)) !! 1%positive
      = Some [0; 0; 0; 255].
Proof. repeat split; vm_compute; reflexivity. Qed.

(** ** Binary64 arithmetic that stays finite *)

Lemma fexp64 e : fexp prec emax e = Z.max (e - 53) (-1074).
Proof. reflexivity. Qed.

Lemma digits2_pos_bounds p :
  2 ^ (Z.pos (digits2_pos p) - 1) <= Z.pos p < 2 ^ Z.pos (digits2_pos p).
Proof.
  induction p as [p IH|p IH|]; cbn [digits2_pos]; rewrite ?Pos2Z.inj_succ.
  - replace (Z.succ (Z.pos (digits2_pos p)) - 1) with (Z.succ (Z.pos (digits2_pos p) - 1)) by lia.
    rewrite !Z.pow_succ_r by lia. lia.
  - replace (Z.succ (Z.pos (digits2_pos p)) - 1) with (Z.succ (Z.pos (digits2_pos p) - 1)) by lia.
    rewrite !Z.pow_succ_r by lia. lia.
  - cbn. lia.
Qed.

Lemma Zdigits2_nonneg m : 0 <= Zdigits2 m.
Proof. destruct m; cbn; lia. Qed.

Lemma Zdigits2_pos m : 0 < m -> 0 < Zdigits2 m.
Proof. destruct m; cbn; lia. Qed.

Lemma Zdigits2_bounds m : 0 < m -> 2 ^ (Zdigits2 m - 1) <= m < 2 ^ Zdigits2 m.
Proof. destruct m as [|p|p]; try lia. intros _. apply digits2_pos_bounds. Qed.

Lemma Zdigits2_le m k : 0 <= m -> 0 <= k -> m < 2 ^ k -> Zdigits2 m <= k.
Proof.
  intros Hm Hk Hlt. destruct (Z.eq_dec m 0) as [->|Hne]; [cbn; lia |].
  pose proof (Zdigits2_bounds m ltac:(lia)) as [Hlo _].
  pose proof (Zdigits2_nonneg m).
  assert (2 ^ (Zdigits2 m - 1) < 2 ^ k) as Hp by lia.
  apply Z.pow_lt_mono_r_iff in Hp; lia.
Qed.

Lemma Zdigits2_mono m n : 0 <= m <= n -> Zdigits2 m <= Zdigits2 n.
Proof.
  intros [Hm Hmn]. destruct (Z.eq_dec n 0) as [->|Hne].
  { replace m with 0 by lia. lia. }
  apply Zdigits2_le; [lia | apply Zdigits2_nonneg |].
  pose proof (Zdigits2_bounds n ltac:(lia)). lia.
Qed.

Lemma Zdigits2_succ m : 0 <= m -> Zdigits2 (m + 1) <= Zdigits2 m + 1.
Proof.
  intros Hm. pose proof (Zdigits2_nonneg m).
  apply Zdigits2_le; [lia | lia |].
  rewrite Z.pow_add_r by lia.
  destruct (Z.eq_dec m 0) as [->|Hne]; [cbn; lia |].
  pose proof (Zdigits2_bounds m ltac:(lia)). lia.
Qed.

Lemma Zdigits2_shift m k : 0 <= m -> 0 <= k -> Zdigits2 (m * 2 ^ k) <= Zdigits2 m + k.
Proof.
  intros Hm Hk. pose proof (Zdigits2_nonneg m).
  pose proof (Z.pow_pos_nonneg 2 k ltac:(lia) Hk).
  apply Zdigits2_le; [nia | lia |].
  rewrite Z.pow_add_r by lia.
  destruct (Z.eq_dec m 0) as [->|Hne]; [cbn [Zdigits2]; rewrite Z.pow_0_r; lia |].
  pose proof (Zdigits2_bounds m ltac:(lia)). nia.
Qed.

Lemma shr_1_digits r :
  0 <= shr_m r ->
  0 <= shr_m (shr_1 r) /\ Zdigits2 (shr_m (shr_1 r)) = Z.max (Zdigits2 (shr_m r) - 1) 0.
Proof.
  destruct r as [m rr ss]. cbn [shr_m].
  destruct m as [|[p|p|]|p]; cbn [shr_1 shr_m Zdigits2 digits2_pos];
    rewrite ?Pos2Z.inj_succ; lia.
Qed.

Lemma iter_shr_1_digits p : forall r,
  0 <= shr_m r ->
  0 <= shr_m (SpecFloat.iter_pos shr_1 p r)
  /\ Zdigits2 (shr_m (SpecFloat.iter_pos shr_1 p r)) = Z.max (Zdigits2 (shr_m r) - Z.pos p) 0.
Proof.
  induction p as [p IH|p IH|]; intros r Hr; cbn [SpecFloat.iter_pos].
  - destruct (shr_1_digits r Hr) as [H1 E1].
    destruct (IH _ H1) as [H2 E2]. destruct (IH _ H2) as [H3 E3].
    split; [done |]. rewrite E3, E2, E1. lia.
  - destruct (IH _ Hr) as [H2 E2]. destruct (IH _ H2) as [H3 E3].
    split; [done |]. rewrite E3, E2. lia.
  - apply shr_1_digits, Hr.
Qed.

Lemma shr_m_of_loc m l : shr_m (shr_record_of_loc m l) = m.
Proof. by destruct l as [|[]]. Qed.

Lemma shr_fexp_props m e l r e' :
  0 <= m -> shr_fexp prec emax m e l = (r, e') ->
  0 <= shr_m r
  /\ e' = Z.max e (fexp prec emax (Zdigits2 m + e))
  /\ Zdigits2 (shr_m r) + e' <= Z.max (Zdigits2 m + e) (fexp prec emax (Zdigits2 m + e)).
Proof.
  intros Hm. unfold shr_fexp, shr.
  destruct (fexp prec emax (Zdigits2 m + e) - e) as [|p|p] eqn:E; intros [= <- <-].
  - rewrite shr_m_of_loc. lia.
  - destruct (iter_shr_1_digits p (shr_record_of_loc m l)) as [H1 E1];
      rewrite ?shr_m_of_loc in *; [done |].
    rewrite E1. lia.
  - rewrite shr_m_of_loc. lia.
Qed.

Lemma round_nearest_even_bounds m l :
  0 <= m -> m <= round_nearest_even m l <= m + 1.
Proof. intros. unfold round_nearest_even. destruct l as [|[]]; try destruct (Z.even m); lia. Qed.

Lemma binary_round_aux_finite sx mx ex lx :
  0 <= mx -> ex <= 971 -> Zdigits2 mx + ex <= 1023 ->
  sf_finite (binary_round_aux prec emax sx mx ex lx).
Proof.
  intros Hm He Hd. unfold binary_round_aux.
  destruct (shr_fexp prec emax mx ex lx) as [r1 e1] eqn:E1.
  apply shr_fexp_props in E1 as (Hr1 & He1 & Hd1); [| done].
  pose proof (round_nearest_even_bounds (shr_m r1) (loc_of_shr_record r1) Hr1) as Hrne.
  set (m1 := round_nearest_even (shr_m r1) (loc_of_shr_record r1)) in *.
  destruct (shr_fexp prec emax m1 e1 loc_Exact) as [r2 e2] eqn:E2.
  apply shr_fexp_props in E2 as (Hr2 & He2 & Hd2); [| lia].
  assert (Zdigits2 m1 <= Zdigits2 (shr_m r1) + 1) as Hdm1.
  { etransitivity; [apply (Zdigits2_mono m1 (shr_m r1 + 1)); lia |].
    by apply Zdigits2_succ. }
  rewrite fexp64 in *.
  destruct (shr_m r2) as [|m2|m2]; [done | | lia].
  replace (e2 <=? emax - prec) with true; [done |].
  symmetry. apply Z.leb_le. change (emax - prec) with 971. lia.
Qed.

Lemma Pos_iter_xO mx d : Z.pos (Pos.iter xO mx d) = Z.pos mx * 2 ^ Z.pos d.
Proof.
  induction d as [|d IH] using Pos.peano_ind.
  - cbn. lia.
  - rewrite Pos.iter_succ, Pos2Z.inj_xO, IH, Pos2Z.inj_succ, Z.pow_succ_r by lia. lia.
Qed.

Lemma shl_align_digits mx ex ez :
  ez <= ex ->
  Zdigits2 (Z.pos (shl_align mx ex ez).1) + ez <= Zdigits2 (Z.pos mx) + ex.
Proof.
  intros Hle. unfold shl_align. destruct (ez - ex) as [|d|d] eqn:E; cbn [fst]; try lia.
  rewrite Pos_iter_xO.
  pose proof (Zdigits2_shift (Z.pos mx) (Z.pos d)). lia.
Qed.

Lemma binary_round_finite sx mx ex :
  ex <= 971 -> Zdigits2 (Z.pos mx) + ex <= 1023 ->
  sf_finite (binary_round prec emax sx mx ex).
Proof.
  intros He Hd. unfold binary_round.
  set (e' := fexp prec emax (Z.pos (digits2_pos mx) + ex)).
  destruct (shl_align mx ex e') as [mz ez] eqn:E.
  apply binary_round_aux_finite; [lia | |].
  - revert E. unfold shl_align. destruct (e' - ex) eqn:E'; intros [= <- <-]; lia.
  - revert E. unfold shl_align. destruct (e' - ex) as [|d|d] eqn:E'; intros [= <- <-]; try done.
    rewrite Pos_iter_xO.
    pose proof (Zdigits2_shift (Z.pos mx) (Z.pos d)). lia.
Qed.

Lemma Zdigits2_abs m : Zdigits2 (Z.abs m) = Zdigits2 m.
Proof. by destruct m. Qed.

Lemma binary_normalize_finite m e sz :
  e <= 971 -> Zdigits2 m + e <= 1023 ->
  sf_finite (binary_normalize prec emax m e sz).
Proof. destruct m; [done | |]; apply binary_round_finite. Qed.

Lemma sf_small_finite x : sf_small x -> sf_finite x.
Proof. by destruct x as [| | |[]]. Qed.

Lemma SFsub_small x y : sf_small x -> sf_small y -> sf_finite (SFsub prec emax x y).
Proof.
  destruct x as [sx| | |[] mx ex], y as [sy| | |[] my ey]; try done.
  - intros _ _. by destruct sx, sy.
  - intros [Hex Hdx] [Hey Hdy]. unfold SFsub. cbn [cond_Zopp].
    set (ez := Z.min ex ey).
    pose proof (shl_align_digits mx ex ez ltac:(lia)) as Hx.
    pose proof (shl_align_digits my ey ez ltac:(lia)) as Hy.
    change (Zdigits2 (Z.pos mx)) with (Z.pos (digits2_pos mx)) in Hx.
    change (Zdigits2 (Z.pos my)) with (Z.pos (digits2_pos my)) in Hy.
    set (A := Z.pos (shl_align mx ex ez).1) in *.
    set (B := Z.pos (shl_align my ey ez).1) in *.
    assert (0 < A /\ 0 < B) as [HA HB] by (unfold A, B; lia).
    clearbody A B.
    apply binary_normalize_finite; [lia |].
    rewrite <- Zdigits2_abs.
    assert (Zdigits2 (Z.abs (A - B)) <= Z.max (Zdigits2 A) (Zdigits2 B)); [| lia].
    destruct (Z.le_ge_cases A B).
    + etransitivity; [apply (Zdigits2_mono _ B); lia | lia].
    + etransitivity; [apply (Zdigits2_mono _ A); lia | lia].
Qed.

Lemma SFdiv_255_finite x :
  valid_binary x = true -> sf_finite x ->
  sf_finite (SFdiv prec emax x (Prim2SF 255)).
Proof.
  change (Prim2SF 255) with (S754_finite false 8972014882652160 (-45)).
  destruct x as [sx| | |sx mx ex]; try done.
  intros Hv _. unfold valid_binary, bounded, canonical_mantissa in Hv.
  apply andb_true_iff in Hv as [Hc Hb].
  apply Z.eqb_eq in Hc. apply Z.leb_le in Hb.
  rewrite fexp64 in Hc. change (emax - prec) with 971 in Hb.
  unfold SFdiv, SFdiv_core_binary. cbn [Zdigits2].
  change (Z.pos (digits2_pos 8972014882652160)) with 53.
  set (d1 := Z.pos (digits2_pos mx)) in *.
  rewrite fexp64.
  set (e' := Z.min _ _).
  set (m' := match ex - -45 - e' with Z.pos _ => _ | _ => _ end).
  assert (0 <= ex - -45 - e') as Hs by lia.
  assert (m' = Z.pos mx * 2 ^ (ex - -45 - e')) as Hm'.
  { unfold m'. destruct (ex - -45 - e') as [|s|s] eqn:Es; [lia | | lia].
    by rewrite Z.shiftl_mul_pow2. }
  clearbody m'.
  destruct (Z.div_eucl m' 8972014882652160) as [q r] eqn:Eq.
  assert (q = m' / 8972014882652160) as Hq by (unfold Z.div; by rewrite Eq).
  assert (0 <= m') as Hm0 by (pose proof (Z.pow_nonneg 2 (ex - -45 - e')); nia).
  assert (0 <= q) as Hq0 by (rewrite Hq; apply Z.div_pos; lia).
  apply binary_round_aux_finite; [done | lia |].
  destruct (Z.eq_dec q 0) as [->|Hne]; [cbn [Zdigits2]; lia |].
  pose proof (Zdigits2_bounds q ltac:(lia)) as [Hlo _].
  pose proof (Zdigits2_shift (Z.pos mx) (ex - -45 - e') ltac:(lia) Hs) as Hsh.
  rewrite <- Hm' in Hsh. cbn [Zdigits2] in Hsh. fold d1 in Hsh.
  pose proof (Zdigits2_bounds m') as Hm'b.
  pose proof (Z.mul_div_le m' 8972014882652160 ltac:(lia)) as Hdiv.
  rewrite <- Hq in Hdiv.
  pose proof (Zdigits2_pos q ltac:(lia)). pose proof (Zdigits2_nonneg m').
  assert (2 ^ (Zdigits2 q - 1 + 52) < 2 ^ Zdigits2 m') as Hpow.
  { rewrite Z.pow_add_r by lia. change (2 ^ 52) with 4503599627370496.
    specialize (Hm'b ltac:(lia)). lia. }
  apply Z.pow_lt_mono_r_iff in Hpow; lia.
Qed.

Lemma SFmul_zero_r x s :
  sf_finite x -> exists s', SFmul prec emax x (S754_zero s) = S754_zero s'.
Proof. destruct x; try done; intros _; cbn; eauto. Qed.

Lemma SFmul_zero_l x s :
  sf_finite x -> exists s', SFmul prec emax (S754_zero s) x = S754_zero s'.
Proof. destruct x; try done; intros _; cbn; eauto. Qed.

Lemma sf_smallb_small x : sf_smallb x = true -> sf_small x.
Proof. destruct x as [| | |[] m e]; try done. cbn. lia. Qed.

Lemma num_of_byte_small z : is_byte z -> sf_small (Prim2SF (num_of_byte z)).
Proof.
  intros Hz.
  assert (forallb (fun z => sf_smallb (Prim2SF (num_of_byte z))) all_bytes = true) as Hall
    by (vm_compute; reflexivity).
  rewrite forallb_forall in Hall.
  apply sf_smallb_small, Hall, is_byte_all_bytes, Hz.
Qed.

Lemma is_nan_false x : PrimFloat.is_nan x = false -> Prim2SF x ≠ S754_nan.
Proof.
  unfold PrimFloat.is_nan. rewrite FloatAxioms.eqb_spec. intros H E. by rewrite E in H.
Qed.

Lemma is_infinity_false x s : PrimFloat.is_infinity x = false -> Prim2SF x ≠ S754_infinity s.
Proof.
  unfold PrimFloat.is_infinity. rewrite FloatAxioms.eqb_spec, FloatAxioms.abs_spec.
  change (Prim2SF infinity) with (S754_infinity false).
  intros H E. by rewrite E in H.
Qed.

(** What [clampRGB] returns, unless it is handed [NaN]. *)
Lemma clampRGB_small v :
  PrimFloat.is_nan (ToNumber v) = false ->
  sf_small (Prim2SF (ToNumber (Util.clampRGB v))).
Proof.
  intros Hnan%is_nan_false. unfold Util.clampRGB, js_lt, js_gt.
  cbn [ToNumber]. rewrite !FloatAxioms.ltb_spec.
  change (Prim2SF 0) with (S754_zero false).
  change (Prim2SF 255) with (S754_finite false 8972014882652160 (-45)).
  destruct (SFltb (Prim2SF (ToNumber v)) (S754_zero false)) eqn:Hlt; [done |].
  destruct (SFltb _ (Prim2SF (ToNumber v))) eqn:Hgt;
    [by apply sf_smallb_small |].
  pose proof (Prim2SF_valid (ToNumber v)) as Hv.
  destruct (Prim2SF (ToNumber v)) as [s|[]| |[] m e]; try done.
  unfold valid_binary, bounded, canonical_mantissa in Hv.
  apply andb_true_iff in Hv as [Hc%Z.eqb_eq _]. rewrite fexp64 in Hc.
  unfold SFltb, SFcompare in Hgt. cbn.
  destruct (Z.compare_spec (-45) e); try done; lia.
Qed.

(** The right-hand side of an assignment at opacity 0 is the parent's own
    value, as long as nothing in it is infinite or [NaN]. *)
Lemma mix_zero_opacity (pc rc a : float) :
  sf_small (Prim2SF pc) -> sf_small (Prim2SF rc) -> sf_finite (Prim2SF a) ->
  ToUint8Clamp (pc - (pc - rc) * (0 * (a / 255)))%float = ToUint8Clamp pc.
Proof.
  intros Hp Hr Ha.
  set (q := (a / 255)%float). set (w := (0 * q)%float).
  set (d := (pc - rc)%float). set (dw := (d * w)%float).
  assert (sf_finite (Prim2SF q)) as Hq.
  { unfold q. rewrite FloatAxioms.div_spec. apply SFdiv_255_finite; [apply Prim2SF_valid | done]. }
  assert (exists s1, Prim2SF w = S754_zero s1) as [s1 Hw].
  { unfold w. rewrite FloatAxioms.mul_spec. by apply (SFmul_zero_l _ false). }
  assert (sf_finite (Prim2SF d)) as Hd.
  { unfold d. rewrite FloatAxioms.sub_spec. by apply SFsub_small. }
  assert (exists s2, Prim2SF dw = S754_zero s2) as [s2 Hdw].
  { unfold dw. rewrite FloatAxioms.mul_spec, Hw. by apply SFmul_zero_r. }
  unfold ToUint8Clamp. rewrite FloatAxioms.sub_spec, Hdw.
  destruct (Prim2SF pc) as [sp| | |[] m e]; try done.
  by destruct sp, s2.
Qed.

(** ** Opacity zero *)

Lemma channel_tame k res :
  (k < 3)%nat -> tame res -> PrimFloat.is_nan (ToNumber (channel k res)) = false.
Proof.
  intros Hk (Hr & Hg & Hb & _). destruct k as [|[|[|k]]]; try done; lia.
Qed.

Lemma alpha_finite f L P i :
  wf_buffer L -> (i + 3 < length L)%nat ->
  tame (f (read_rgba L i) (read_rgba P i)) ->
  sf_finite (Prim2SF (ToNumber (rgba.a (blend_result f L P i)))).
Proof.
  intros HL Hi (_ & _ & _ & Hinf). unfold blend_result. rewrite alpha_finish.
  destruct (ToBoolean _) eqn:Hb.
  - destruct (rgba.a _) as [|x]; [done |]. cbn [ToNumber ToBoolean] in *.
    apply negb_true_iff, orb_false_iff in Hb as [Hnan _].
    pose proof (is_nan_false _ Hnan). pose proof (is_infinity_false x true Hinf).
    pose proof (is_infinity_false x false Hinf).
    by destruct (Prim2SF x) as [|[]| |].
  - cbn [rgba.a read_rgba]. unfold ta_get.
    destruct (lookup_lt_is_Some_2 L _ Hi) as [z Hz]. rewrite Hz. cbn [ToNumber].
    apply sf_small_finite, num_of_byte_small. by eapply Forall_lookup_1.
Qed.

Lemma composite_zero_opacity f L P :
  wf_buffer P -> wf_buffer L -> (length L mod 4 = 0)%nat ->
  (forall i, (i mod 4 = 0)%nat -> (i < length L)%nat ->
             tame (f (read_rgba L i) (read_rgba P i))) ->
  composite f 0 (length L) L P = P.
Proof.
  intros HP HL Hlen Htame. apply list_eq; intros j. rewrite lookup_composite.
  destruct (P !! j) as [z|] eqn:Hz; [cbn [fmap option_fmap option_map] | done].
  case_bool_decide as Hj; [| done]. f_equal.
  destruct Hj as [Hk Hi]. unfold composite_at.
  set (i := (j / 4 * 4)%nat) in *. set (k := (j mod 4)%nat) in *.
  assert (i mod 4 = 0 ∧ j = i + k ∧ k < 3 ∧ i + 3 < length L)%nat
    as (Hi4 & Hjk & Hk3 & Hi3) by (unfold i, k; div_lia).
  specialize (Htame i Hi4 Hi).
  rewrite channel_read_rgba by lia. unfold blend_result at 1. rewrite channel_finish by done.
  unfold ta_get. rewrite <- Hjk, Hz.
  pose proof (Forall_lookup_1 _ _ _ _ HP Hz) as Hbyte.
  unfold Layer.mix, js_sub, js_mul, js_div. cbn [ToNumber].
  rewrite mix_zero_opacity.
  - by apply ToUint8Clamp_num_of_byte.
  - by apply num_of_byte_small.
  - apply clampRGB_small. by apply channel_tame.
  - by apply alpha_finite.
Qed.

(** C6, as amended.  When every blend result has colour channels other
    than [NaN] and an alpha that is not infinite, the layer operand is made
    of whole pixels and [options.opacity] is 0, [applyToParent] leaves the
    parent array as it was. *)
Theorem applyToParent_zero_opacity s this l (f : blender) p L P :
  layers s !! this = Some l ->
  blenders s !! Options.blendingMode (options l) = Some f ->
  last (Caman.pixelStack (c s)) = Some p ->
  buffers s !! p = Some P ->
  buffers s !! Caman.pixelData (c s) = Some L ->
  Options.opacity (options l) = 0%float ->
  wf_buffer P -> wf_buffer L -> (length L mod 4 = 0)%nat ->
  (forall i, (i mod 4 = 0)%nat -> (i < length L)%nat ->
             tame (f (read_rgba L i) (read_rgba P i))) ->
  exists s', Layer.applyToParent this s = Ret tt s' ∧ buffers s' !! p = Some P.
Proof.
  intros Hl Hf Hlast Hp HL Hop HwP HwL Hlen Htame.
  eexists. split; [by eapply applyToParent_ok |].
  cbn. rewrite lookup_insert_eq, Hop. f_equal.
  by apply composite_zero_opacity.
Qed.

Lemma applyToParent_zero_opacity_witness :
  exists s',
    Layer.applyToParent 1%positive
      (sample_state "addition" 0 [100; 100; 100; 255] [200; 50; 0; 255]) = Ret tt s'
    ∧ buffers s' !! 1%positive = Some [100; 100; 100; 255].
Proof.
  apply (applyToParent_zero_opacity
           (sample_state "addition" 0 [100; 100; 100; 255] [200; 50; 0; 255])
           1%positive (mkLayer (Options.mk "addition" 0) 7 1 1 2%positive)
           addition 1%positive [200; 50; 0; 255] [100; 100; 100; 255]);
    [ reflexivity | reflexivity | reflexivity | reflexivity | reflexivity | reflexivity
    | apply wf_buffer_check; reflexivity | apply wf_buffer_check; reflexivity
    | reflexivity | ].
  intros i Hi Hlt. cbn [length] in Hlt.
  assert (i = 0%nat) as -> by div_lia.
  repeat split; vm_compute; reflexivity.
Defined.

(** The claim as it stands fails for a mode whose alpha is infinite: at
    opacity 0 the weight is [0 * Infinity], which is [NaN], and the parent's
    R, G and B are stored as 0. *)
Lemma applyToParent_zero_opacity_counterexample :
  let s := sample_state "glare" 0 [100; 100; 100; 255] [200; 50; 0; 255] in
  (Options.opacity ∘ options) <$> layers s !! 1%positive = Some 0%float
  ∧ buffers s !! 1%positive = Some [100; 100; 100; 255]
  ∧ buffers (final (Layer.applyToParent 1%positive s)) !! 1%positive
      = Some [0; 0; 0; 255].
Proof. repeat split; vm_compute; reflexivity. Qed.

(** * Further properties of the layer code *)

(** ** What [applyToParent] leaves alone *)

(** X1.  However [applyToParent] ends, the engine, the layers and the
    registry are as before, and so is every array other than the one on top
    of the engine's [pixelStack]. *)
Theorem applyToParent_frame this s q :
  last (Caman.pixelStack (c s)) ≠ Some q ->
  let s' := final (Layer.applyToParent this s) in
  c s' = c s ∧ layers s' = layers s ∧ blenders s' = blenders s
  ∧ buffers s' !! q = buffers s !! q.
Proof.
  intros Hq.
  destruct (applyToParent_cases this s)
    as [(e' & _ & He) | [Hr | (l & f & p & L & P & _ & _ & Hlast & _ & _ & Hr)]];
    rewrite ?He, ?Hr; cbn; try done.
  repeat split. apply lookup_insert_ne. congruence.
Qed.

Lemma applyToParent_frame_witness :
  let s := sample_state "normal" 0.5 [100; 100; 100; 255] [200; 50; 0; 255] in
  buffers (final (Layer.applyToParent 1%positive s)) !! 2%positive
    = Some [200; 50; 0; 255].
Proof.
  intros s.
  destruct (applyToParent_frame 1%positive s 2%positive) as (_ & _ & _ & H);
    [vm_compute; discriminate | exact H].
Defined.

(** X2.  [applyToParent] never changes the length of an array. *)
Theorem applyToParent_keeps_lengths this s (q : ref) :
  length <$> buffers (final (Layer.applyToParent this s)) !! q
  = length <$> buffers s !! q.
Proof.
  destruct (applyToParent_cases this s)
    as [(e' & _ & He) | [Hr | (l & f & p & L & P & _ & _ & _ & Hp & _ & Hr)]];
    rewrite ?He, ?Hr; cbn; try done.
  destruct (decide (q = p)) as [->|Hne].
  - by rewrite lookup_insert_eq, Hp; cbn; rewrite length_composite.
  - by rewrite lookup_insert_ne.
Qed.

(** X3.  Where the parent is longer than the layer operand, the elements
    of the parent from the first pixel that starts at or past the operand's
    length are not written. *)
Theorem applyToParent_tail_untouched s this l (f : blender) p L P (j : nat) :
  layers s !! this = Some l ->
  blenders s !! Options.blendingMode (options l) = Some f ->
  last (Caman.pixelStack (c s)) = Some p ->
  buffers s !! p = Some P ->
  buffers s !! Caman.pixelData (c s) = Some L ->
  (length L ≤ j / 4 * 4)%nat ->
  exists s' P',
    Layer.applyToParent this s = Ret tt s'
    ∧ buffers s' !! p = Some P'
    ∧ P' !! j = P !! j.
Proof.
  intros Hl Hf Hlast Hp HL Hj.
  eexists _, _. split; [by eapply applyToParent_ok |].
  split; [cbn; apply lookup_insert_eq |].
  apply lookup_composite_untouched. lia.
Qed.

Lemma applyToParent_tail_untouched_witness :
  exists s' P',
    Layer.applyToParent 1%positive long_parent_state = Ret tt s'
    ∧ buffers s' !! 1%positive = Some P'
    ∧ P' !! 5%nat = Some 8.
Proof.
  apply (applyToParent_tail_untouched long_parent_state 1%positive
           (mkLayer (Options.mk "normal" 1) 7 1 1 2%positive) normal 1%positive
           [200; 50; 0; 255] [100; 100; 100; 255; 7; 8; 9; 255] 5%nat);
    reflexivity.
Defined.

(** ** Edge cases of [applyToParent] *)

(** X4.  With an empty [pixelStack] and a layer operand of at least one
    element, [applyToParent] throws a [TypeError] at the first read of the
    parent, and the store is as before. *)
Theorem applyToParent_empty_stack s this l z L :
  layers s !! this = Some l ->
  buffers s !! Caman.pixelData (c s) = Some (z :: L) ->
  Caman.pixelStack (c s) = [] ->
  Layer.applyToParent this s = Throw TypeError s.
Proof.
  intros Hl HL Hstack. eapply applyToParent_no_parent; eauto.
  by rewrite Hstack.
Qed.

Lemma applyToParent_empty_stack_witness :
  Layer.applyToParent 1%positive fresh_layer_state = Throw TypeError fresh_layer_state.
Proof.
  apply (applyToParent_empty_stack fresh_layer_state 1%positive
           (mkLayer (Options.mk "normal" 1) 7 1 1 2%positive) 10 [20; 30; 255]);
    reflexivity.
Defined.

(** X5.  On an image without pixels [applyToParent] returns at once and
    changes nothing, whatever the mode (registered or not) and whatever the
    [pixelStack] holds. *)
Theorem applyToParent_without_pixels s this l :
  layers s !! this = Some l ->
  buffers s !! Caman.pixelData (c s) = Some [] ->
  Layer.applyToParent this s = Ret tt s.
Proof. intros Hl HL. by eapply applyToParent_empty. Qed.

Lemma applyToParent_without_pixels_witness :
  let s := sample_state "sepia" 1 [1; 2; 3; 4] [] in
  Layer.applyToParent 1%positive s = Ret tt s.
Proof.
  intros s.
  apply (applyToParent_without_pixels s 1%positive
           (mkLayer (Options.mk "sepia" 1) 7 1 1 2%positive)); reflexivity.
Defined.

(** ** The ends of the interpolation *)

Lemma full_weight_byte pz z :
  is_byte pz -> is_byte z ->
  ToUint8Clamp
    (num_of_byte pz - (num_of_byte pz - num_of_byte z) * (1 * (255 / 255)))%float = z.
Proof.
  intros Hp Hz.
  assert (forallb (fun pz => forallb (fun z =>
            ToUint8Clamp
              (num_of_byte pz - (num_of_byte pz - num_of_byte z) * (1 * (255 / 255)))%float
            =? z) all_bytes) all_bytes = true) as Hall
    by (vm_compute; reflexivity).
  rewrite forallb_forall in Hall.
  specialize (Hall pz (is_byte_all_bytes pz Hp)).
  rewrite forallb_forall in Hall.
  apply Z.eqb_eq, Hall, is_byte_all_bytes, Hz.
Qed.

(** X6.  At opacity 1 and a result alpha of 255 (after the default), a
    parent channel becomes the clamped blend result itself, when that is a
    whole number from 0 to 255. *)
Theorem applyToParent_full_opacity s this l (f : blender) p L P (i k : nat) pz z :
  layers s !! this = Some l ->
  blenders s !! Options.blendingMode (options l) = Some f ->
  last (Caman.pixelStack (c s)) = Some p ->
  buffers s !! p = Some P ->
  buffers s !! Caman.pixelData (c s) = Some L ->
  Options.opacity (options l) = 1%float ->
  (i mod 4 = 0)%nat -> (i < length L)%nat -> (k < 3)%nat ->
  P !! (i + k)%nat = Some pz -> is_byte pz ->
  let result := Layer.finish (f (read_rgba L i) (read_rgba P i)) (read_rgba L i) in
  ToNumber (rgba.a result) = 255%float ->
  ToNumber (channel k result) = num_of_byte z -> is_byte z ->
  exists s' P',
    Layer.applyToParent this s = Ret tt s'
    ∧ buffers s' !! p = Some P'
    ∧ P' !! (i + k)%nat = Some z.
Proof.
  intros Hl Hf Hlast Hp HL Hop Hi HiL Hk HP Hpz result Ha Hc Hz.
  eexists _, _. split; [by eapply applyToParent_ok |].
  split; [cbn; apply lookup_insert_eq |].
  rewrite (lookup_composite_written _ _ _ _ _ _ i k)
    by (try done; by apply lookup_lt_Some in HP).
  f_equal. unfold Layer.mix, js_sub, js_mul, js_div. cbn [ToNumber].
  rewrite channel_read_rgba by lia. unfold ta_get. rewrite HP. cbn [ToNumber].
  unfold blend_result. fold result. rewrite Hop, Ha, Hc.
  by apply full_weight_byte.
Qed.

Lemma applyToParent_full_opacity_witness :
  exists s' P',
    Layer.applyToParent 1%positive
      (sample_state "addition" 1 [100; 100; 100; 255] [200; 50; 0; 255]) = Ret tt s'
    ∧ buffers s' !! 1%positive = Some P'
    ∧ P' !! 1%nat = Some 150.
Proof.
  apply (applyToParent_full_opacity
           (sample_state "addition" 1 [100; 100; 100; 255] [200; 50; 0; 255])
           1%positive (mkLayer (Options.mk "addition" 1) 7 1 1 2%positive)
           addition 1%positive [200; 50; 0; 255] [100; 100; 100; 255] 0%nat 1%nat 100 150);
    try reflexivity; try (cbn; lia); unfold is_byte; lia.
Defined.

Lemma mix_zero_weight (pc rc w : float) s0 :
  sf_small (Prim2SF pc) -> sf_small (Prim2SF rc) -> Prim2SF w = S754_zero s0 ->
  ToUint8Clamp (pc - (pc - rc) * w)%float = ToUint8Clamp pc.
Proof.
  intros Hp Hr Hw.
  assert (sf_finite (Prim2SF (pc - rc)%float)) as Hd.
  { rewrite FloatAxioms.sub_spec. by apply SFsub_small. }
  assert (exists s2, Prim2SF ((pc - rc) * w)%float = S754_zero s2) as [s2 Hdw].
  { rewrite FloatAxioms.mul_spec, Hw. by apply SFmul_zero_r. }
  unfold ToUint8Clamp. rewrite FloatAxioms.sub_spec, Hdw.
  destruct (Prim2SF pc) as [sp| | |[] m e]; try done.
  by destruct sp, s2.
Qed.

Lemma is_finite_sf x : PrimFloat.is_finite x = true -> sf_finite (Prim2SF x).
Proof.
  unfold PrimFloat.is_finite. intros [Hnan Hinf]%negb_true_iff%orb_false_iff.
  pose proof (is_nan_false _ Hnan).
  pose proof (is_infinity_false x true Hinf).
  pose proof (is_infinity_false x false Hinf).
  by destruct (Prim2SF x) as [|[]| |].
Qed.

(** X7.  A layer pixel whose alpha byte is 0 leaves the parent pixel as it
    was, at every finite opacity, for a mode that gives no alpha of its own
    and colour channels other than [NaN]: the layer's alpha is the mask. *)
Theorem applyToParent_transparent_pixel s this l (f : blender) p L P (i : nat) :
  layers s !! this = Some l ->
  blenders s !! Options.blendingMode (options l) = Some f ->
  last (Caman.pixelStack (c s)) = Some p ->
  buffers s !! p = Some P ->
  buffers s !! Caman.pixelData (c s) = Some L ->
  wf_buffer P ->
  PrimFloat.is_finite (Options.opacity (options l)) = true ->
  (i mod 4 = 0)%nat -> L !! (i + 3)%nat = Some 0 ->
  let raw := f (read_rgba L i) (read_rgba P i) in
  ToBoolean (rgba.a raw) = false ->
  PrimFloat.is_nan (ToNumber (rgba.r raw)) = false ->
  PrimFloat.is_nan (ToNumber (rgba.g raw)) = false ->
  PrimFloat.is_nan (ToNumber (rgba.b raw)) = false ->
  exists s' P',
    Layer.applyToParent this s = Ret tt s'
    ∧ buffers s' !! p = Some P'
    ∧ forall k, (k < 4)%nat -> P' !! (i + k)%nat = P !! (i + k)%nat.
Proof.
  intros Hl Hf Hlast Hp HL HwP Hop Hi Ha raw Hfalsy Hr Hg Hb.
  eexists _, _. split; [by eapply applyToParent_ok |].
  split; [cbn; apply lookup_insert_eq |].
  intros k Hk. pose proof (lookup_lt_Some _ _ _ Ha) as HiL.
  destruct (decide (k = 3%nat)) as [->|Hk3];
    [apply lookup_composite_untouched; div_lia |].
  destruct (P !! (i + k)%nat) as [pz|] eqn:HP; cycle 1.
  { rewrite lookup_composite, HP. done. }
  rewrite (lookup_composite_written _ _ _ _ _ _ i k)
    by (try done; try lia; by apply lookup_lt_Some in HP).
  f_equal. unfold Layer.mix, js_sub, js_mul, js_div. cbn [ToNumber].
  rewrite channel_read_rgba by lia. unfold ta_get. rewrite HP. cbn [ToNumber].
  pose proof (Forall_lookup_1 _ _ _ _ HwP HP) as Hbyte.
  unfold blend_result. fold raw.
  rewrite channel_finish by lia. rewrite alpha_finish, Hfalsy.
  cbn [rgba.a read_rgba]. unfold ta_get. rewrite Ha. cbn [ToNumber].
  assert (exists s0,
            Prim2SF (Options.opacity (options l) * (num_of_byte 0 / 255))%float
            = S754_zero s0) as [s0 Hw].
  { rewrite FloatAxioms.mul_spec.
    change (Prim2SF (num_of_byte 0 / 255)) with (S754_zero false).
    by apply SFmul_zero_r, is_finite_sf. }
  rewrite (mix_zero_weight _ _ _ s0).
  - by apply ToUint8Clamp_num_of_byte.
  - by apply num_of_byte_small.
  - apply clampRGB_small. destruct k as [|[|[|k]]]; try done; lia.
  - done.
Qed.

Lemma applyToParent_transparent_pixel_witness :
  exists s' P',
    Layer.applyToParent 1%positive
      (sample_state "addition" 0.75 [100; 100; 100; 255] [200; 50; 0; 0]) = Ret tt s'
    ∧ buffers s' !! 1%positive = Some P'
    ∧ forall k, (k < 4)%nat -> P' !! (0 + k)%nat = [100; 100; 100; 255] !! (0 + k)%nat.
Proof.
  apply (applyToParent_transparent_pixel
           (sample_state "addition" 0.75 [100; 100; 100; 255] [200; 50; 0; 0])
           1%positive (mkLayer (Options.mk "addition" 0.75) 7 1 1 2%positive)
           addition 1%positive [200; 50; 0; 0] [100; 100; 100; 255] 0%nat);
    try reflexivity.
  apply wf_buffer_check; reflexivity.
Defined.

(** X8.  The bytes stored for a pixel depend on that pixel of the two
    arrays only: two runs with the same mode and opacity whose arrays agree
    on pixel [i] store the same R, G and B for it, whatever the other pixels
    hold. *)
Theorem applyToParent_pixel_local
    s1 s2 this1 this2 l1 l2 (f : blender) p1 p2 L1 L2 P1 P2 (i k : nat) :
  layers s1 !! this1 = Some l1 -> layers s2 !! this2 = Some l2 ->
  blenders s1 !! Options.blendingMode (options l1) = Some f ->
  blenders s2 !! Options.blendingMode (options l2) = Some f ->
  Options.opacity (options l1) = Options.opacity (options l2) ->
  last (Caman.pixelStack (c s1)) = Some p1 -> last (Caman.pixelStack (c s2)) = Some p2 ->
  buffers s1 !! p1 = Some P1 -> buffers s2 !! p2 = Some P2 ->
  buffers s1 !! Caman.pixelData (c s1) = Some L1 ->
  buffers s2 !! Caman.pixelData (c s2) = Some L2 ->
  (i mod 4 = 0)%nat -> (k < 3)%nat ->
  (i < length L1)%nat -> (i < length L2)%nat ->
  (i + k < length P1)%nat -> (i + k < length P2)%nat ->
  read_rgba L1 i = read_rgba L2 i -> read_rgba P1 i = read_rgba P2 i ->
  exists s1' s2' P1' P2',
    Layer.applyToParent this1 s1 = Ret tt s1'
    ∧ Layer.applyToParent this2 s2 = Ret tt s2'
    ∧ buffers s1' !! p1 = Some P1' ∧ buffers s2' !! p2 = Some P2'
    ∧ P1' !! (i + k)%nat = P2' !! (i + k)%nat.
Proof.
  intros Hl1 Hl2 Hf1 Hf2 Hop Hlast1 Hlast2 Hp1 Hp2 HL1 HL2 Hi Hk Hi1 Hi2 Hk1 Hk2 HrL HrP.
  eexists _, _, _, _.
  split; [by eapply applyToParent_ok |]. split; [by eapply applyToParent_ok |].
  split; [cbn; apply lookup_insert_eq |]. split; [cbn; apply lookup_insert_eq |].
  rewrite !(lookup_composite_written _ _ _ _ _ _ i k) by done.
  unfold blend_result. by rewrite HrL, HrP, Hop.
Qed.

Lemma applyToParent_pixel_local_witness :
  exists s1' s2' P1' P2',
    Layer.applyToParent 1%positive
      (sample_state "addition" 0.5 [100; 100; 100; 255] [200; 50; 0; 255]) = Ret tt s1'
    ∧ Layer.applyToParent 1%positive
        (sample_state "addition" 0.5 [100; 100; 100; 255; 1; 2; 3; 4]
                      [200; 50; 0; 255; 9; 9; 9; 9]) = Ret tt s2'
    ∧ buffers s1' !! 1%positive = Some P1' ∧ buffers s2' !! 1%positive = Some P2'
    ∧ P1' !! (0 + 2)%nat = P2' !! (0 + 2)%nat.
Proof.
  apply (applyToParent_pixel_local
           (sample_state "addition" 0.5 [100; 100; 100; 255] [200; 50; 0; 255])
           (sample_state "addition" 0.5 [100; 100; 100; 255; 1; 2; 3; 4]
                         [200; 50; 0; 255; 9; 9; 9; 9])
           1%positive 1%positive
           (mkLayer (Options.mk "addition" 0.5) 7 1 1 2%positive)
           (mkLayer (Options.mk "addition" 0.5) 7 1 1 2%positive)
           addition 1%positive 1%positive
           [200; 50; 0; 255] [200; 50; 0; 255; 9; 9; 9; 9]
           [100; 100; 100; 255] [100; 100; 100; 255; 1; 2; 3; 4] 0%nat 2%nat);
    try reflexivity; cbn; lia.
Defined.

(** ** Construction *)

Lemma alloc_buffer_ok buf s :
  alloc_buffer buf s =
    Ret (fresh (dom (buffers s)))
        (set_buffers (<[fresh (dom (buffers s)) := buf]> (buffers s)) s).
Proof. done. Qed.

Lemma alloc_layer_ok l s :
  alloc_layer l s =
    Ret (fresh (dom (layers s)))
        (set_layers (<[fresh (dom (layers s)) := l]> (layers s)) s).
Proof. done. Qed.

Lemma fresh_buffer s : buffers s !! fresh (dom (buffers s)) = None.
Proof. apply not_elem_of_dom, is_fresh. Qed.

Lemma fresh_layer s : layers s !! fresh (dom (layers s)) = None.
Proof. apply not_elem_of_dom, is_fresh. Qed.

Lemma new_Layer_ok uniqid E s :
  buffers s !! Caman.pixelData (c s) = Some E ->
  let q := fresh (dom (buffers s)) in
  let this := fresh (dom (layers s)) in
  let l := mkLayer (Options.mk "normal" 1) uniqid
             (fst (Caman.dimensions (c s))) (snd (Caman.dimensions (c s))) q in
  new_Layer uniqid s =
    Ret this
      (mkState (c s) (<[this := l]> (layers s))
               (<[q := replicate (length E) 0]> (buffers s)) (blenders s)).
Proof.
  intros HE q this l. unfold new_Layer.
  unfold get_state at 1. unfold mbind at 1, M_bind at 1.
  erewrite bind_Ret; [| by apply ta_length_Some].
  erewrite bind_Ret; [| apply alloc_buffer_ok].
  by rewrite alloc_layer_ok.
Qed.

Lemma wf_buffer_zeros n : wf_buffer (replicate n 0).
Proof. apply Forall_replicate. unfold is_byte. lia. Qed.

(** X9.  [new Layer(c)] takes a reference and an array that were not in
    use: every layer and every array of the store is still there with its
    content, the engine is untouched, and the new layer has the default
    options ("normal", 1.0), the engine's dimensions, and a zero-filled array
    as long as the engine's current one. *)
Theorem new_Layer_fresh uniqid E s :
  buffers s !! Caman.pixelData (c s) = Some E ->
  exists this l s',
    new_Layer uniqid s = Ret this s'
    ∧ layers s !! this = None ∧ buffers s !! pixelData l = None
    ∧ layers s' !! this = Some l
    ∧ options l = Options.mk "normal" 1
    ∧ layerID l = uniqid
    ∧ (width l, height l) = Caman.dimensions (c s)
    ∧ buffers s' !! pixelData l = Some (replicate (length E) 0)
    ∧ c s' = c s ∧ blenders s' = blenders s
    ∧ (forall r x, layers s !! r = Some x -> layers s' !! r = Some x)
    ∧ (forall r buf, buffers s !! r = Some buf -> buffers s' !! r = Some buf).
Proof.
  intros HE. pose proof (new_Layer_ok uniqid E s HE) as Hrun. cbn zeta in Hrun.
  eexists _, (mkLayer _ _ _ _ _), _. split; [exact Hrun |]. cbn.
  split; [apply fresh_layer |]. split; [apply fresh_buffer |].
  split; [apply lookup_insert_eq |]. split; [done |]. split; [done |].
  split; [by destruct (Caman.dimensions (c s)) |].
  split; [apply lookup_insert_eq |]. split; [done |]. split; [done |].
  split; intros r x Hx; rewrite lookup_insert_ne; try done; intros <-.
  - by rewrite fresh_layer in Hx.
  - by rewrite fresh_buffer in Hx.
Qed.

Lemma new_Layer_fresh_witness :
  exists this l s',
    new_Layer 42 fresh_layer_state = Ret this s'
    ∧ layers s' !! this = Some l
    ∧ buffers s' !! pixelData l = Some [0; 0; 0; 0]
    ∧ buffers s' !! 1%positive = Some [10; 20; 30; 255].
Proof.
  destruct (new_Layer_fresh 42 [10; 20; 30; 255] fresh_layer_state eq_refl)
    as (this & l & s' & Hrun & _ & _ & Hl & _ & _ & _ & Hbuf & _ & _ & _ & Hkeep).
  exists this, l, s'. split; [exact Hrun |]. split; [exact Hl |].
  split; [exact Hbuf |]. apply Hkeep. reflexivity.
Defined.

(** X10.  A layer that is constructed and then told to [copyParent] still
    holds zeros only, whatever the engine's current array holds: the copy
    reads the layer's own array. *)
Theorem new_Layer_copyParent uniqid E s :
  buffers s !! Caman.pixelData (c s) = Some E ->
  exists this l s',
    (new_Layer uniqid ≫= Layer.copyParent) s = Ret this s'
    ∧ layers s' !! this = Some l
    ∧ buffers s' !! pixelData l = Some (replicate (length E) 0)
    ∧ buffers s' !! Caman.pixelData (c s') = Some E.
Proof.
  intros HE.
  assert (Caman.pixelData (c s) ≠ fresh (dom (buffers s))) as Hne
    by (intros Heq; by rewrite Heq, fresh_buffer in HE).
  eexists _, _, _. split.
  - erewrite bind_Ret; [| by apply new_Layer_ok].
    eapply copyParent_ok; cbn.
    + apply lookup_insert_eq.
    + cbn. apply lookup_insert_eq.
    + apply wf_buffer_zeros.
    + by rewrite lookup_insert_ne.
  - cbn. split; [apply lookup_insert_eq |]. cbn.
    split; [apply lookup_insert_eq |]. by rewrite lookup_insert_ne.
Qed.

Lemma new_Layer_copyParent_witness :
  exists this l s',
    (new_Layer 42 ≫= Layer.copyParent) fresh_layer_state = Ret this s'
    ∧ layers s' !! this = Some l
    ∧ buffers s' !! pixelData l = Some [0; 0; 0; 0]
    ∧ buffers s' !! Caman.pixelData (c s') = Some [10; 20; 30; 255].
Proof.
  exact (new_Layer_copyParent 42 [10; 20; 30; 255] fresh_layer_state eq_refl).
Defined.

(** ** Configuration and compositing together *)



(** X12.  The name of the mode is not checked when it is set:
    [setBlendingMode] with an unregistered name returns the layer, and it is
    the following [applyToParent] that throws, leaving the arrays alone. *)
Theorem unregistered_mode_fails_at_composite s this l (name : string) z L p P :
  layers s !! this = Some l ->
  blenders s !! name = None ->
  buffers s !! Caman.pixelData (c s) = Some (z :: L) ->
  last (Caman.pixelStack (c s)) = Some p ->
  buffers s !! p = Some P ->
  exists s1,
    Layer.setBlendingMode name this s = Ret this s1
    ∧ (Layer.setBlendingMode name this ≫= Layer.applyToParent) s
        = Throw (ConfigurationError name) s1
    ∧ buffers s1 = buffers s.
Proof.
  intros Hl Hf HL Hlast Hp.
  assert (Layer.setBlendingMode name this s =
            Ret this (set_layers
                        (<[this := set_options
                                     (Options.mk name (Options.opacity (options l))) l]>
                           (layers s)) s)) as Hset.
  { unfold Layer.setBlendingMode.
    by erewrite bind_Ret; [| by apply update_options_ok]. }
  eexists. split; [exact Hset |]. split; [| done].
  erewrite bind_Ret; [| exact Hset].
  refine (applyToParent_unregistered this
            (set_options (Options.mk name (Options.opacity (options l))) l)
            z L p P _ _ _ _ _ _); cbn; try done.
  apply lookup_insert_eq.
Qed.

Lemma unregistered_mode_fails_at_composite_witness :
  let s := sample_state "normal" 1 [100; 100; 100; 255] [200; 50; 0; 255] in
  exists s1,
    Layer.setBlendingMode "sepia" 1%positive s = Ret 1%positive s1
    ∧ (Layer.setBlendingMode "sepia" 1%positive ≫= Layer.applyToParent) s
        = Throw (ConfigurationError "sepia") s1
    ∧ buffers s1 = buffers s.
Proof.
  intros s.
  apply (unregistered_mode_fails_at_composite s 1%positive
           (mkLayer (Options.mk "normal" 1) 7 1 1 2%positive) "sepia"
           200 [50; 0; 255] 1%positive [100; 100; 100; 255]); reflexivity.
Defined.

(** X13.  The opacity that [opacity(percent)] stores is the weight the
    following [applyToParent] works with: the parent is composited with
    [percent / 100], outside [0, 100] as well. *)
Theorem opacity_then_applyToParent s this l (f : blender) p L P (percent : float) :
  layers s !! this = Some l ->
  blenders s !! Options.blendingMode (options l) = Some f ->
  last (Caman.pixelStack (c s)) = Some p ->
  buffers s !! p = Some P ->
  buffers s !! Caman.pixelData (c s) = Some L ->
  exists s',
    (Layer.opacity percent this ≫= Layer.applyToParent) s = Ret tt s'
    ∧ buffers s' !! p = Some (composite f (percent / 100)%float (length L) L P).
Proof.
  intros Hl Hf Hlast Hp HL.
  set (l1 := set_options
               (Options.mk (Options.blendingMode (options l)) (percent / 100)%float) l).
  set (s1 := set_layers (<[this := l1]> (layers s)) s).
  assert (Layer.opacity percent this s = Ret this s1) as Hset.
  { unfold Layer.opacity. by erewrite bind_Ret; [| by apply update_options_ok]. }
  assert (layers s1 !! this = Some l1) as Hl1 by (cbn; apply lookup_insert_eq).
  pose proof (applyToParent_ok this l1 f p L P s1 Hl1 Hf Hlast Hp HL) as Hrun.
  eexists. split; [erewrite bind_Ret by exact Hset; exact Hrun |].
  cbn. apply lookup_insert_eq.
Qed.

Lemma opacity_then_applyToParent_witness :
  exists s',
    (Layer.opacity 50 1%positive ≫= Layer.applyToParent)
      (sample_state "normal" 1 [100; 100; 100; 255] [200; 50; 0; 255]) = Ret tt s'
    ∧ buffers s' !! 1%positive = Some [150; 75; 50; 255].
Proof.
  destruct (opacity_then_applyToParent
              (sample_state "normal" 1 [100; 100; 100; 255] [200; 50; 0; 255])
              1%positive (mkLayer (Options.mk "normal" 1) 7 1 1 2%positive)
              normal 1%positive [200; 50; 0; 255] [100; 100; 100; 255] 50
              eq_refl eq_refl eq_refl eq_refl eq_refl) as (s' & Hrun & Hbuf).
  exists s'. split; [exact Hrun |].
  vm_compute in Hbuf. exact Hbuf.
Defined.

(** ** Aliasing and odd lengths *)

(** X14.  Compositing in place is safe: when the engine's current array is
    the parent itself, the parent ends as it does when the layer operand is
    a separate array with the same content.  No round reads what an earlier
    round wrote. *)
Theorem applyToParent_in_place s1 s2 this1 this2 l1 l2 (f : blender) p1 p2 P :
  layers s1 !! this1 = Some l1 -> layers s2 !! this2 = Some l2 ->
  blenders s1 !! Options.blendingMode (options l1) = Some f ->
  blenders s2 !! Options.blendingMode (options l2) = Some f ->
  Options.opacity (options l1) = Options.opacity (options l2) ->
  last (Caman.pixelStack (c s1)) = Some p1 -> last (Caman.pixelStack (c s2)) = Some p2 ->
  Caman.pixelData (c s1) = p1 ->
  Caman.pixelData (c s2) ≠ p2 ->
  buffers s1 !! p1 = Some P ->
  buffers s2 !! p2 = Some P ->
  buffers s2 !! Caman.pixelData (c s2) = Some P ->
  exists s1' s2',
    Layer.applyToParent this1 s1 = Ret tt s1'
    ∧ Layer.applyToParent this2 s2 = Ret tt s2'
    ∧ buffers s1' !! p1 = buffers s2' !! p2.
Proof.
  intros Hl1 Hl2 Hf1 Hf2 Hop Hlast1 Hlast2 Hq1 Hq2 Hp1 Hp2 HL2.
  eexists _, _.
  split; [eapply applyToParent_ok; eauto; by rewrite Hq1 |].
  split; [by eapply applyToParent_ok |].
  cbn. by rewrite !lookup_insert_eq, Hop.
Qed.

Lemma applyToParent_in_place_witness :
  let s1 := mkState (Caman.mk (1, 1) 1%positive [1%positive])
              {[ 1%positive := mkLayer (Options.mk "addition" 0.5) 7 1 1 2%positive ]}
              {[ 1%positive := [100; 60; 20; 255] ]} sample_blenders in
  let s2 := sample_state "addition" 0.5 [100; 60; 20; 255] [100; 60; 20; 255] in
  exists s1' s2',
    Layer.applyToParent 1%positive s1 = Ret tt s1'
    ∧ Layer.applyToParent 1%positive s2 = Ret tt s2'
    ∧ buffers s1' !! 1%positive = buffers s2' !! 1%positive.
Proof.
  intros s1 s2.
  apply (applyToParent_in_place s1 s2 1%positive 1%positive
           (mkLayer (Options.mk "addition" 0.5) 7 1 1 2%positive)
           (mkLayer (Options.mk "addition" 0.5) 7 1 1 2%positive)
           addition 1%positive 1%positive [100; 60; 20; 255]);
    try reflexivity.
  vm_compute. intros H. discriminate H.
Defined.

Lemma mix_nan_weight (pc rc op : float) :
  ToUint8Clamp (pc - (pc - rc) * (op * (nan / 255)))%float = 0.
Proof.
  unfold ToUint8Clamp.
  rewrite FloatAxioms.sub_spec, !FloatAxioms.mul_spec, FloatAxioms.div_spec.
  change (Prim2SF nan) with S754_nan.
  change (SF64div S754_nan (Prim2SF 255)) with S754_nan.
  replace (SF64mul (Prim2SF op) S754_nan) with S754_nan
    by (by destruct (Prim2SF op)).
  replace (SF64mul (Prim2SF (pc - rc)%float) S754_nan) with S754_nan
    by (by destruct (Prim2SF (pc - rc)%float)).
  replace (SF64sub (Prim2SF pc) S754_nan) with S754_nan
    by (by destruct (Prim2SF pc)).
  done.
Qed.

(** X15.  A layer operand whose length is not a multiple of 4 still gets a
    round for its last, incomplete pixel.  The layer alpha read there is
    [undefined]; for a mode that gives no alpha of its own the weight is
    [NaN], and the R, G and B of that pixel of the parent are stored as 0. *)
Theorem applyToParent_incomplete_pixel s this l (f : blender) p L P (i k : nat) :
  layers s !! this = Some l ->
  blenders s !! Options.blendingMode (options l) = Some f ->
  last (Caman.pixelStack (c s)) = Some p ->
  buffers s !! p = Some P ->
  buffers s !! Caman.pixelData (c s) = Some L ->
  (i mod 4 = 0)%nat -> (i < length L ≤ i + 3)%nat ->
  ToBoolean (rgba.a (f (read_rgba L i) (read_rgba P i))) = false ->
  (k < 3)%nat -> (i + k < length P)%nat ->
  exists s' P',
    Layer.applyToParent this s = Ret tt s'
    ∧ buffers s' !! p = Some P'
    ∧ P' !! (i + k)%nat = Some 0.
Proof.
  intros Hl Hf Hlast Hp HL Hi [HiL Hshort] Hfalsy Hk HkP.
  eexists _, _. split; [by eapply applyToParent_ok |].
  split; [cbn; apply lookup_insert_eq |].
  rewrite (lookup_composite_written _ _ _ _ _ _ i k) by done.
  assert (rgba.a (blend_result f L P i) = JUndefined) as Ha.
  { unfold blend_result. rewrite alpha_finish, Hfalsy.
    cbn [rgba.a read_rgba]. unfold ta_get. by rewrite lookup_ge_None_2 by lia. }
  rewrite Ha. f_equal. unfold Layer.mix, js_sub, js_mul, js_div. cbn [ToNumber].
  apply mix_nan_weight.
Qed.

Lemma applyToParent_incomplete_pixel_witness :
  exists s' P',
    Layer.applyToParent 1%positive
      (sample_state "addition" 0.5 [100; 100; 100; 255] [200; 50]) = Ret tt s'
    ∧ buffers s' !! 1%positive = Some P'
    ∧ P' !! (0 + 0)%nat = Some 0.
Proof.
  apply (applyToParent_incomplete_pixel
           (sample_state "addition" 0.5 [100; 100; 100; 255] [200; 50])
           1%positive (mkLayer (Options.mk "addition" 0.5) 7 1 1 2%positive)
           addition 1%positive [200; 50] [100; 100; 100; 255] 0%nat 0%nat);
    try reflexivity; cbn; lia.
Defined.

(** X16.  Two layers constructed one after the other are different objects
    with different arrays: no layer shares its array with another at
    birth. *)
Theorem new_Layer_twice id1 id2 E s :
  buffers s !! Caman.pixelData (c s) = Some E ->
  exists this1 this2 l1 l2 s',
    (this1 ← new_Layer id1; this2 ← new_Layer id2; mret (this1, this2)) s
      = Ret (this1, this2) s'
    ∧ layers s' !! this1 = Some l1 ∧ layers s' !! this2 = Some l2
    ∧ this1 ≠ this2 ∧ pixelData l1 ≠ pixelData l2
    ∧ pixelData l1 ≠ Caman.pixelData (c s') ∧ pixelData l2 ≠ Caman.pixelData (c s').
Proof.
  intros HE.
  pose proof (new_Layer_ok id1 E s HE) as H1. cbn zeta in H1.
  set (q1 := fresh (dom (buffers s))) in *. set (t1 := fresh (dom (layers s))) in *.
  set (l1 := mkLayer _ _ _ _ q1) in *. set (s1 := mkState _ _ _ _) in *.
  assert (Caman.pixelData (c s) ≠ q1) as Hq1
    by (intros Heq; unfold q1 in Heq; by rewrite Heq, fresh_buffer in HE).
  assert (buffers s1 !! Caman.pixelData (c s1) = Some E) as HE1
    by (cbn; by rewrite lookup_insert_ne).
  pose proof (new_Layer_ok id2 E s1 HE1) as H2. cbn zeta in H2.
  set (q2 := fresh (dom (buffers s1))) in *. set (t2 := fresh (dom (layers s1))) in *.
  set (l2 := mkLayer _ _ _ _ q2) in *.
  assert (t1 ≠ t2) as Ht.
  { intros Heq. pose proof (fresh_layer s1) as Hfr. fold t2 in Hfr.
    rewrite <- Heq in Hfr. cbn in Hfr. by rewrite lookup_insert_eq in Hfr. }
  assert (q1 ≠ q2) as Hq.
  { intros Heq. pose proof (fresh_buffer s1) as Hfr. fold q2 in Hfr.
    rewrite <- Heq in Hfr. cbn in Hfr. by rewrite lookup_insert_eq in Hfr. }
  assert (Caman.pixelData (c s) ≠ q2) as Hq2.
  { intros Heq. pose proof (fresh_buffer s1) as Hfr. fold q2 in Hfr.
    rewrite <- Heq in Hfr.
    assert (buffers s1 !! Caman.pixelData (c s) = Some E) as HE1' by exact HE1.
    by rewrite HE1' in Hfr. }
  exists t1, t2, l1, l2. eexists. split.
  - erewrite bind_Ret; [| exact H1]. erewrite bind_Ret; [| exact H2]. reflexivity.
  - cbn. split; [by rewrite lookup_insert_ne, lookup_insert_eq |].
    split; [apply lookup_insert_eq |]. done.
Qed.

Lemma new_Layer_twice_witness :
  exists this1 this2 l1 l2 s',
    (this1 ← new_Layer 1; this2 ← new_Layer 2; mret (this1, this2)) fresh_layer_state
      = Ret (this1, this2) s'
    ∧ layers s' !! this1 = Some l1 ∧ layers s' !! this2 = Some l2
    ∧ this1 ≠ this2 ∧ pixelData l1 ≠ pixelData l2.
Proof.
  destruct (new_Layer_twice 1 2 [10; 20; 30; 255] fresh_layer_state eq_refl)
    as (t1 & t2 & l1 & l2 & s' & Hrun & Hl1 & Hl2 & Ht & Hq & _).
  exists t1, t2, l1, l2, s'. repeat split; assumption.
Defined.
